(** * flexp.flow.cache: the PickleCache memoization engine

    A shallow embedding of [src/flexp/flow/cache.py] and the properties of
    its chain fingerprint, cache key and hit / miss / recovery protocol.

    The embedding follows the module as it runs under Python 3 (the
    [six.PY3] branch, which selects [PickleMixinP3]): [bytes] and text
    [str] are distinct types, and adding one to the other raises
    [TypeError].  Text literals of the module are text in either case,
    because of [from __future__ import unicode_literals]. *)

From Stdlib Require Import ZArith Strings.Byte Strings.String Strings.Ascii.
From Stdlib Require Import DecimalString.
From stdpp Require Import base strings list gmap sorting.

Local Open Scope Z_scope.

Set Warnings "-register-all".

(** ** Bytes and text *)

Abbreviation bytes := (list byte).

Definition b_ (s : string) : bytes := list_byte_of_string s.

Definition byte_of_Z (z : Z) : byte :=
  match Byte.of_N (Z.to_N (z mod 256)) with
  | Some b => b
  | None => x00
  end.

Definition Z_of_byte (b : byte) : Z := Z.of_N (Byte.to_N b).

(** ** hashlib.sha256

    The digest of the standard library, on 32-bit words held in [Z] with the
    wrap-around written out. *)

Module Sha256.

Definition w32 (x : Z) : Z := Z.land x 4294967295.

Definition add32 (x y : Z) : Z := w32 (x + y).

Definition rotr (n x : Z) : Z :=
  w32 (Z.lor (Z.shiftr x n) (Z.shiftl x (32 - n))).

Definition shr (n x : Z) : Z := Z.shiftr x n.

Definition Ch (x y z : Z) : Z :=
  Z.lxor (Z.land x y) (Z.land (Z.lxor x 4294967295) z).

Definition Maj (x y z : Z) : Z :=
  Z.lxor (Z.lxor (Z.land x y) (Z.land x z)) (Z.land y z).

Definition bsig0 (x : Z) : Z :=
  Z.lxor (Z.lxor (rotr 2 x) (rotr 13 x)) (rotr 22 x).

Definition bsig1 (x : Z) : Z :=
  Z.lxor (Z.lxor (rotr 6 x) (rotr 11 x)) (rotr 25 x).

Definition ssig0 (x : Z) : Z :=
  Z.lxor (Z.lxor (rotr 7 x) (rotr 18 x)) (shr 3 x).

Definition ssig1 (x : Z) : Z :=
  Z.lxor (Z.lxor (rotr 17 x) (rotr 19 x)) (shr 10 x).

(** The round constants and the initial state are the first 32 bits of the
    fractional parts of the cube roots of the first 64 primes, and of the
    square roots of the first 8. *)
Fixpoint primes_from (fuel : nat) (n : nat) (c : Z) (found : list Z) : list Z :=
  match fuel, n with
  | S fuel', S n' =>
      if forallb (fun p => negb (c mod p =? 0)) found
      then primes_from fuel' n' (c + 1) (found ++ [c])
      else primes_from fuel' n (c + 1) found
  | _, _ => found
  end.

Definition primes (n : nat) : list Z := primes_from 400 n 2 [].

(** The largest [r] with [r ^ 3 <= x], bit by bit from bit [bits - 1]. *)
Fixpoint cube_root (bits : nat) (x r : Z) : Z :=
  match bits with
  | O => r
  | S bits' =>
      let r' := r + Z.shiftl 1 (Z.of_nat bits') in
      cube_root bits' x (if r' * r' * r' <=? x then r' else r)
  end.

Definition K : list Z :=
  Eval cbv in
    map (fun p => w32 (cube_root 40 (Z.shiftl p 96) 0)) (primes 64).

Definition H0 : list Z :=
  Eval cbv in map (fun p => w32 (Z.sqrt (Z.shiftl p 64))) (primes 8).

(** Padding: a one bit, zeros up to 56 modulo 64, the bit length on eight
    bytes, most significant first. *)
Definition be_bytes (n : nat) (x : Z) : bytes :=
  map (fun i : nat => byte_of_Z (Z.shiftr x (8 * Z.of_nat i))) (rev (seq 0 n)).

Definition pad (msg : bytes) : bytes :=
  let len := Z.of_nat (length msg) in
  let zeros := Z.to_nat ((55 - len) mod 64) in
  msg ++ [x80] ++ replicate zeros x00 ++ be_bytes 8 (8 * len).

Fixpoint words (fuel : nat) (bs : bytes) : list Z :=
  match fuel, bs with
  | S f, a :: b :: c :: d :: rest =>
      (Z.shiftl (Z_of_byte a) 24 + Z.shiftl (Z_of_byte b) 16
       + Z.shiftl (Z_of_byte c) 8 + Z_of_byte d) :: words f rest
  | _, _ => []
  end.

Definition to_words (bs : bytes) : list Z := words (length bs) bs.

Definition nthw (l : list Z) (i : nat) : Z := nth i l 0.

(** Message schedule: [ws] holds the words produced so far, newest
    first. *)
Fixpoint schedule (n : nat) (ws : list Z) : list Z :=
  match n with
  | O => ws
  | S n' =>
      let w := add32 (add32 (ssig1 (nthw ws 1)) (nthw ws 6))
                     (add32 (ssig0 (nthw ws 14)) (nthw ws 15)) in
      schedule n' (w :: ws)
  end.

Definition round (st : list Z) (kw : Z * Z) : list Z :=
  match st with
  | [a; b; c; d; e; f; g; h] =>
      let t1 := add32 (add32 (add32 h (bsig1 e)) (add32 (Ch e f g) kw.1)) kw.2 in
      let t2 := add32 (bsig0 a) (Maj a b c) in
      [add32 t1 t2; a; b; c; add32 d t1; e; f; g]
  | _ => st
  end.

Definition compress (h : list Z) (block : list Z) : list Z :=
  let w := rev (schedule 48 (rev block)) in
  let st := foldl round h (zip K w) in
  zip_with add32 h st.

Fixpoint blocks (fuel : nat) (ws : list Z) (h : list Z) : list Z :=
  match fuel, ws with
  | S f, _ :: _ => blocks f (drop 16 ws) (compress h (take 16 ws))
  | _, _ => h
  end.

Definition digest (msg : bytes) : bytes :=
  let ws := to_words (pad msg) in
  flat_map (be_bytes 4) (blocks (length ws) ws H0).

Definition hex_digit (z : Z) : ascii :=
  ascii_of_nat (Z.to_nat (if z <? 10 then 48 + z else 87 + z)).

Fixpoint hex (bs : bytes) : string :=
  match bs with
  | [] => EmptyString
  | b :: rest =>
      String (hex_digit (Z.shiftr (Z_of_byte b) 4))
        (String (hex_digit (Z.land (Z_of_byte b) 15)) (hex rest))
  end.

Definition hexdigest (msg : bytes) : string := hex (digest msg).

End Sha256.

(** ** Exceptions and results *)

Inductive exc : Type :=
  | StopIteration
  | EOFError
  | PicklingError
  | UnpicklingError
  | TypeError
  | AttributeError
  | KeyError
  | UnicodeEncodeError
  | OSError
  | OverflowError
  | RecursionError.

Global Instance exc_eq_dec : EqDecision exc.
Proof. solve_decision. Defined.

(** What a call produces: a value, or a raised exception. *)
Inductive result (A : Type) : Type :=
  | Ok (a : A)
  | Raise (e : exc).
Arguments Ok {A} a.
Arguments Raise {A} e.

Global Instance result_ret : MRet result := fun A a => Ok a.

Global Instance result_bind : MBind result := fun A B k m =>
  match m with
  | Ok a => k a
  | Raise e => Raise e
  end.

(** [try: m  except: h] *)
Definition try_except {A} (m : result A) (h : result A) : result A :=
  match m with
  | Ok a => Ok a
  | Raise _ => h
  end.

(** [try: m  except e: h] *)
Definition try_except_on {A} (e : exc) (m : result A) (h : result A) : result A :=
  match m with
  | Ok a => Ok a
  | Raise e' => if decide (e' = e) then h else Raise e'
  end.

Definition is_ok {A} (m : result A) : bool :=
  match m with Ok _ => true | Raise _ => false end.

(** ** Python values

    The objects a chain and a record are made of.  Containers keep the order
    in which the interpreter iterates over them: insertion order for the
    attributes of an instance and the entries of a dict, the internal table
    order for a set. *)

Inductive pykey : Type :=
  | KStr (s : string)
  | KInt (z : Z).

Global Instance pykey_eq_dec : EqDecision pykey.
Proof. solve_decision. Defined.

(** The class of an instance: its name, whether it defines [process], and
    the modification time of its source file when [inspect.getsourcefile]
    resolves one. *)
Record pyclass : Type := {
  cls_name : string;
  cls_has_process : bool;
  cls_mtime : option Z
}.

Inductive pyobj : Type :=
  | PNone
  | PBool (b : bool)
  | PInt (z : Z)
  | PFloat (t : Z)
      (* the floats of the module are modification times, which are compared
         and maximised but never computed with: held as a number of ticks *)
  | PStr (s : string)
  | PList (xs : list pyobj)
  | PSet (xs : list pyobj)
  | PDict (kvs : list (pykey * pyobj))
  | PInst (c : pyclass) (attrs : list (string * pyobj))
  | PFunc (name : string)
  | PPartial (func : pyobj) (keywords : list (string * pyobj))
  | POpaque (cname : string)
      (* an object without attributes, entries or elements, such as a lock *).

Definition key_obj (k : pykey) : pyobj :=
  match k with
  | KStr s => PStr s
  | KInt z => PInt z
  end.

(** A dict, and a record in particular: [d[k]] and [d[k] = v]. *)
Abbreviation pydict := (list (pykey * pyobj)).

Fixpoint dict_get (k : pykey) (d : pydict) : option pyobj :=
  match d with
  | [] => None
  | (k', v) :: d' => if decide (k' = k) then Some v else dict_get k d'
  end.

Fixpoint dict_set (k : pykey) (v : pyobj) (d : pydict) : pydict :=
  match d with
  | [] => [(k, v)]
  | (k', v') :: d' =>
      if decide (k' = k) then (k', v) :: d' else (k', v') :: dict_set k v d'
  end.

Definition getitem (k : pykey) (d : pydict) : result pyobj :=
  match dict_get k d with
  | Some v => Ok v
  | None => Raise KeyError
  end.

(** [obj.__class__.__name__] *)
Definition class_name (o : pyobj) : string :=
  match o with
  | PNone => "NoneType"
  | PBool _ => "bool"
  | PInt _ => "int"
  | PFloat _ => "float"
  | PStr _ => "str"
  | PList _ => "list"
  | PSet _ => "set"
  | PDict _ => "dict"
  | PInst c _ => cls_name c
  | PFunc _ => "function"
  | PPartial _ _ => "partial"
  | POpaque c => c
  end.

Fixpoint assoc (k : string) (l : list (string * pyobj)) : option pyobj :=
  match l with
  | [] => None
  | (k', v) :: l' => if decide (k' = k) then Some v else assoc k l'
  end.

(** [obj.__name__] when [hasattr(obj, '__name__')]. *)
Definition py_name (o : pyobj) : option pyobj :=
  match o with
  | PFunc n => Some (PStr n)
  | PInst _ attrs => assoc "__name__" attrs
  | _ => None
  end.

(** [s.encode("ASCII")] *)
Fixpoint encode_ascii (s : string) : result bytes :=
  match s with
  | EmptyString => Ok []
  | String c s' =>
      if (nat_of_ascii c <? 128)%nat
      then match encode_ascii s' with
           | Ok bs => Ok (byte_of_ascii c :: bs)
           | Raise e => Raise e
           end
      else Raise UnicodeEncodeError
  end.

(** [x.encode("ASCII")] on an arbitrary object: only text has the method. *)
Definition encode_attr (x : pyobj) : result bytes :=
  match x with
  | PStr s => encode_ascii s
  | _ => Raise AttributeError
  end.

(** [vars(obj).items()] *)
Definition py_vars (o : pyobj) : result pydict :=
  match o with
  | PInst _ attrs => Ok (map (fun kv => (KStr kv.1, kv.2)) attrs)
  | PFunc _ => Ok []
  | PPartial _ _ => Ok []
  | _ => Raise TypeError
  end.

(** [obj.items()] *)
Definition py_items (o : pyobj) : result pydict :=
  match o with
  | PDict kvs => Ok kvs
  | _ => Raise AttributeError
  end.

Definition chars (s : string) : list pyobj :=
  map (fun c => PStr (String c EmptyString)) (list_ascii_of_string s).

(** [iter(obj)] *)
Definition py_iter (o : pyobj) : result (list pyobj) :=
  match o with
  | PList xs => Ok xs
  | PSet xs => Ok xs
  | PDict kvs => Ok (map (fun kv => key_obj kv.1) kvs)
  | PStr s => Ok (chars s)
  | _ => Raise TypeError
  end.

(** [isinstance(obj, collections.Iterable)] *)
Definition is_iterable (o : pyobj) : bool :=
  match o with
  | PList _ | PSet _ | PDict _ | PStr _ => true
  | _ => false
  end.

(** [hasattr(obj, 'process')] *)
Definition has_process (o : pyobj) : bool :=
  match o with
  | PInst c attrs => cls_has_process c || bool_decide (is_Some (assoc "process" attrs))
  | _ => false
  end.

(** [str(i)] for an index *)
Definition str_of_nat (i : nat) : string :=
  NilEmpty.string_of_uint (Nat.to_uint i).

(** [[(str(i), o) for i, o in enumerate(obj)]] *)
Definition enumerate_items (xs : list pyobj) : pydict :=
  imap (fun i o => (KStr (str_of_nat i), o)) xs.

(** *** sorted

    Keys of one type are ordered (text by code point, integers by value);
    comparing a text key with an integer key raises [TypeError].  The entries
    of a dict have distinct keys, so the values are never compared. *)

Definition key_leb (a b : pykey) : bool :=
  match a, b with
  | KStr s, KStr t => String.leb s t
  | KInt x, KInt y => x <=? y
  | KInt _, KStr _ => true
  | KStr _, KInt _ => false
  end.

Definition is_kstr (k : pykey) : bool :=
  match k with KStr _ => true | KInt _ => false end.

Definition comparable (l : pydict) : bool :=
  forallb (fun kv => is_kstr kv.1) l || forallb (fun kv => negb (is_kstr kv.1)) l.

Fixpoint insert_item (x : pykey * pyobj) (l : pydict) : pydict :=
  match l with
  | [] => [x]
  | y :: l' => if key_leb x.1 y.1 then x :: l else y :: insert_item x l'
  end.

Fixpoint sort_items (l : pydict) : pydict :=
  match l with
  | [] => []
  | x :: l' => insert_item x (sort_items l')
  end.

Definition sorted (l : pydict) : result pydict :=
  if comparable l then Ok (sort_items l) else Raise TypeError.

(** ** The collaborators of the module

    The codec ([pickle]), [repr], [time.ctime], the wrapped pipeline
    ([Chain.process], which mutates the record and may raise) and the depth
    of the interpreter's call stack are not defined by this module; the
    engine is stated over any of them. *)

Class Runtime : Type := {
  (** [pickle.dumps(obj, -1)] *)
  pickle_dumps : pyobj -> result bytes;
  (** what [pickle.dump(obj, f)] writes to [f] *)
  pickle_dump : pyobj -> result bytes;
  (** [pickle.load(f)] on the contents of [f] *)
  pickle_load : bytes -> result pyobj;
  (** [repr(obj)] *)
  py_repr : pyobj -> string;
  (** [time.ctime(t)] for a number [t]: the platform formats it, or raises
      when it cannot represent it ([OverflowError] beyond its [time_t],
      [OSError] beyond the years its [localtime] holds) *)
  time_ctime : Z -> result unit;
  (** [Chain.process(data)] on the units of the chain: the record as the
      units leave it, and the exception that ended the run, if any *)
  Chain_process : list pyobj -> pydict -> pydict * option exc;
  (** nested calls the interpreter allows before [RecursionError] *)
  recursion_limit : nat
}.

(** ** The engine *)

Record chain_info_t : Type := {
  chain_len : nat;
  chain_hash : option string;
  chain_mtime : option Z;
  chain_repr : option string
}.

Record PickleCache : Type := {
  directory : string;
  force : bool;
  data_key : pykey;
  max_recursion_level : nat;
  modules : list pyobj;
  chain_info : chain_info_t
}.

(** [chain_info] as [__init__] sets it. *)
Definition initial_chain_info : chain_info_t :=
  {| chain_len := 0; chain_hash := None; chain_mtime := None; chain_repr := None |}.

Definition set_chain_info (self : PickleCache) (ci : chain_info_t) : PickleCache :=
  {| directory := directory self; force := force self; data_key := data_key self;
     max_recursion_level := max_recursion_level self; modules := modules self;
     chain_info := ci |}.

(** What [_object_dump_to_string] hands back: the byte string it built, or
    the text literal of its depth guard. *)
Inductive dumped : Type :=
  | DBytes (b : bytes)
  | DText (s : string).

(** [acc + x] and [acc += x] for a [bytes] accumulator. *)
Definition bytes_add (acc : bytes) (x : dumped) : result bytes :=
  match x with
  | DBytes b => Ok (acc ++ b)
  | DText _ => Raise TypeError
  end.

(** [six.binary_type().join(parts)] *)
Fixpoint bytes_join (parts : list dumped) : result bytes :=
  match parts with
  | [] => Ok []
  | p :: rest => b ← bytes_add [] p; rest' ← bytes_join rest; Ok (b ++ rest')
  end.

Section Fingerprint.
Context `{Runtime}.
Variable self : PickleCache.

(** [PickleMixinP3.pickle(obj)], with [version=-1] and [encode=False] as at
    every call of this module. *)
Definition pickle (obj : pyobj) : result bytes := pickle_dumps obj.

(** One half of the loop body of [_object_dump_to_string]:
    [try: try: dump_string += rec(x)  except: dump_string += self.pickle(x)
     except pickle.PicklingError: pass]. *)
Definition dump_part (rec : pyobj -> result dumped) (dump_string : bytes)
    (x : pyobj) : result bytes :=
  try_except_on PicklingError
    (try_except (d ← rec x; bytes_add dump_string d)
                (p ← pickle x; Ok (dump_string ++ p)))
    (Ok dump_string).

(** [for attribute, value in items: ...] *)
Fixpoint dump_items (rec : pyobj -> result dumped) (items : pydict)
    (dump_string : bytes) : result bytes :=
  match items with
  | [] => Ok dump_string
  | (attribute, value) :: rest =>
      dump_string ← dump_part rec dump_string (key_obj attribute);
      dump_string ← dump_part rec dump_string value;
      dump_items rec rest dump_string
  end.

(** The items of an object, by the three attempts of the source. *)
Definition object_items (obj : pyobj) : result pydict :=
  try_except (vs ← py_vars obj; sorted vs)
    (try_except (its ← py_items obj; sorted its)
       (xs ← py_iter obj; Ok (enumerate_items xs))).

Fixpoint dump_rec (fuel : nat) (obj : pyobj) (level : nat) : result dumped :=
  match fuel with
  | O => Raise RecursionError
  | S fuel' =>
      if (max_recursion_level self <? level)%nat then Ok (DText EmptyString)
      else
        dump_string ← encode_ascii (class_name obj);
        dump_string ← match py_name obj with
                       | Some n => e ← encode_attr n; Ok (dump_string ++ e)
                       | None => Ok dump_string
                       end;
        match obj with
        | PStr s => r ← bytes_add dump_string (DText s); Ok (DBytes r)
        | _ =>
            items ← object_items obj;
            r ← dump_items (fun x => dump_rec fuel' x (S level)) items dump_string;
            Ok (DBytes r)
        end
  end.

(** The recursion is bounded by the depth guard: [level] grows by one at
    each call and nothing is entered beyond [max_recursion_level + 1]. *)
Definition _object_dump_to_string (obj : pyobj) (level : nat) : result dumped :=
  dump_rec (S (S (max_recursion_level self) - level)) obj level.

Definition _get_chain_hash (chain : pyobj) : result string :=
  d ← _object_dump_to_string chain 0;
  joined ← bytes_join [d];
  Ok (Sha256.hexdigest joined).

(** [os.path.getmtime(inspect.getsourcefile(obj.__class__))], 0 when the
    source file cannot be resolved. *)
Definition _get_object_mtime (obj : pyobj) : Z :=
  match obj with
  | PInst c _ => default 0 (cls_mtime c)
  | _ => 0
  end.

Fixpoint mtime_loop (rec : pyobj -> result Z) (ms : list pyobj)
    (chain_mtimes : list Z) : result (list Z) :=
  match ms with
  | [] => Ok chain_mtimes
  | module :: rest =>
      if is_iterable module then
        t ← rec module; mtime_loop rec rest (chain_mtimes ++ [t])
      else if has_process module then
        mtime_loop rec rest (chain_mtimes ++ [_get_object_mtime module])
      else mtime_loop rec rest chain_mtimes
  end.

Definition max_list (l : list Z) : Z := foldr Z.max 0 l.

Fixpoint chain_mtime_rec (fuel : nat) (chain : pyobj) : result Z :=
  match fuel with
  | O => Raise RecursionError
  | S fuel' =>
      ms ← py_iter chain;
      chain_mtimes ← mtime_loop (chain_mtime_rec fuel') ms [0];
      Ok (max_list chain_mtimes)
  end.

Definition _get_chain_mtime (chain : pyobj) : result Z :=
  chain_mtime_rec recursion_limit chain.

(** [str(obj.__class__)] *)
Definition str_class (o : pyobj) : string :=
  "<class '" +:+ class_name o +:+ "'>".

Definition vars_dict (o : pyobj) : pyobj :=
  match py_vars o with
  | Ok d => PDict d
  | Raise _ => PDict []
  end.

Fixpoint repr_loop (rec : pyobj -> result string) (ms : list pyobj)
    (chain_repr : list string) : result (list string) :=
  match ms with
  | [] => Ok chain_repr
  | module :: rest =>
      if is_iterable module then
        r ← rec module; repr_loop rec rest (chain_repr ++ [r])
      else if has_process module then
        repr_loop rec rest
          (chain_repr ++ [str_class module; py_repr (vars_dict module)])
      else
        match module with
        | PPartial func keywords =>
            repr_loop rec rest
              (chain_repr ++
               [str_class module; py_repr func;
                py_repr (PDict (map (fun kv => (KStr kv.1, kv.2)) keywords))])
        | _ => repr_loop rec rest (chain_repr ++ [py_repr module])
        end
  end.

Fixpoint join_space (l : list string) : string :=
  match l with
  | [] => EmptyString
  | [s] => s
  | s :: rest => s +:+ " " +:+ join_space rest
  end.

Fixpoint chain_repr_rec (fuel : nat) (chain : pyobj) : result string :=
  match fuel with
  | O => Raise RecursionError
  | S fuel' =>
      ms ← py_iter chain;
      chain_repr ← repr_loop (chain_repr_rec fuel') ms [];
      Ok (join_space chain_repr)
  end.

Definition _get_chain_repr (chain : pyobj) : result string :=
  chain_repr_rec recursion_limit chain.

(** The fingerprint of the current units, fields in the order the dict
    display of [hash_chain] evaluates them. *)
Definition compute_chain_info : result chain_info_t :=
  let ms := PList (modules self) in
  mtime ← _get_chain_mtime ms;
  hash ← _get_chain_hash ms;
  repr ← _get_chain_repr ms;
  Ok {| chain_len := length (modules self); chain_mtime := Some mtime;
        chain_hash := Some hash; chain_repr := Some repr |}.

Definition hash_chain : result PickleCache :=
  if decide (length (modules self) ≠ chain_len (chain_info self)) then
    ci ← compute_chain_info; Ok (set_chain_info self ci)
  else Ok self.

(** [self.directory + "/" + key + chain_hash] *)
Definition get_cache_file (data : pydict) : result string :=
  v ← getitem (data_key self) data;
  p ← pickle v;
  let key := Sha256.hexdigest p in
  match chain_hash (chain_info self) with
  | Some chain_hash => Ok (directory self +:+ "/" +:+ key +:+ chain_hash)
  | None => Raise TypeError
  end.

End Fingerprint.

(** ** The process-wide state and the record

    The file system (a path holds the bytes last written to it), the
    garbage-collector switch, the permission bits set by [os.chmod], the
    paths on which [os.chmod] is refused, and a trace of what the engine
    logged, ran and removed. *)

Inductive event : Type :=
  | Log (level : string) (msg : string)
  | Ran (data : pydict)        (* [Chain.process(data)], with the record it was given *)
  | Unlinked (file : string).

Record world : Type := {
  fs : gmap string bytes;
  gc_enabled : bool;
  modes : gmap string Z;
  chmod_refused : gset string;
  trace : list event
}.

(** The caller's record is one dict, shared by reference by the engine and
    the pipeline: what either writes to it stays written when the call ends
    with an exception. *)
Record state : Type := {
  st_world : world;
  st_data : pydict
}.

Definition M (A : Type) : Type := state -> state * result A.

Global Instance M_ret : MRet M := fun A a st => (st, Ok a).

Global Instance M_bind : MBind M := fun A B k m st =>
  match m st with
  | (st', Ok a) => k a st'
  | (st', Raise e) => (st', Raise e)
  end.

Definition lift {A} (r : result A) : M A := fun st => (st, r).

Definition raise {A} (e : exc) : M A := fun st => (st, Raise e).

(** [try: m  except e: h] *)
Definition try_catch {A} (e : exc) (m : M A) (h : M A) : M A := fun st =>
  match m st with
  | (st', Ok a) => (st', Ok a)
  | (st', Raise e') => if decide (e' = e) then h st' else (st', Raise e')
  end.

Definition get_data : M pydict := fun st => (st, Ok (st_data st)).

Definition set_data (d : pydict) : M unit := fun st =>
  ({| st_world := st_world st; st_data := d |}, Ok tt).

Definition upd_world (f : world -> world) : M unit := fun st =>
  ({| st_world := f (st_world st); st_data := st_data st |}, Ok tt).

Definition get_world : M world := fun st => (st, Ok (st_world st)).

(** World updates. *)
Definition add_events (evs : list event) (w : world) : world :=
  {| fs := fs w; gc_enabled := gc_enabled w; modes := modes w;
     chmod_refused := chmod_refused w; trace := trace w ++ evs |}.

Definition with_gc (b : bool) (w : world) : world :=
  {| fs := fs w; gc_enabled := b; modes := modes w;
     chmod_refused := chmod_refused w; trace := trace w |}.

Definition with_fs (m : gmap string bytes) (w : world) : world :=
  {| fs := m; gc_enabled := gc_enabled w; modes := modes w;
     chmod_refused := chmod_refused w; trace := trace w |}.

Definition with_modes (m : gmap string Z) (w : world) : world :=
  {| fs := fs w; gc_enabled := gc_enabled w; modes := m;
     chmod_refused := chmod_refused w; trace := trace w |}.

Definition emit (ev : event) : M unit := upd_world (add_events [ev]).

Definition log (level msg : string) : M unit := emit (Log level msg).

Definition gc_disable : M unit := upd_world (with_gc false).
Definition gc_enable : M unit := upd_world (with_gc true).

Definition set_fs (f : gmap string bytes -> gmap string bytes) : M unit :=
  upd_world (fun w => with_fs (f (fs w)) w).

(** [os.path.exists(file)] *)
Definition path_exists (file : string) : M bool :=
  w ← get_world; mret (bool_decide (is_Some (fs w !! file))).

(** The contents read through [open(file, 'rb')]. *)
Definition read_file (file : string) : M bytes :=
  w ← get_world;
  match fs w !! file with
  | Some content => mret content
  | None => raise OSError
  end.

(** [open(file, 'wb')] creates the file, or empties it. *)
Definition open_wb (file : string) : M unit := set_fs (fun m => <[file := []]> m).

Definition write_file (file : string) (content : bytes) : M unit :=
  set_fs (fun m => <[file := content]> m).

(** [os.unlink(file)] *)
Definition os_unlink (file : string) : M unit :=
  w ← get_world;
  match fs w !! file with
  | Some _ => set_fs (fun m => delete file m);; emit (Unlinked file)
  | None => raise OSError
  end.

Definition S_IRUSR : Z := 256.
Definition S_IWUSR : Z := 128.
Definition S_IRGRP : Z := 32.
Definition S_IWGRP : Z := 16.
Definition S_IROTH : Z := 4.
Definition S_IWOTH : Z := 2.

Definition RWRWRW : Z :=
  Z.lor (Z.lor (Z.lor (Z.lor (Z.lor S_IRUSR S_IWUSR) S_IRGRP) S_IWGRP) S_IROTH) S_IWOTH.

(** [os.chmod(file, mode)] *)
Definition os_chmod (file : string) (mode : Z) : M unit :=
  w ← get_world;
  if bool_decide (file ∈ chmod_refused w) then raise OSError
  else upd_world (fun w => with_modes (<[file := mode]> (modes w)) w).

(** [obj[k]] for a text key: only a dict answers. *)
Definition subscript (obj : pyobj) (k : string) : result pyobj :=
  match obj with
  | PDict d => getitem (KStr k) d
  | _ => Raise TypeError
  end.

(** The truth value of an object, as [if obj:] takes it. *)
Definition truthy (o : pyobj) : bool :=
  match o with
  | PNone => false
  | PBool b => b
  | PInt z => negb (z =? 0)
  | PFloat t => negb (t =? 0)
  | PStr s => negb (bool_decide (s = EmptyString))
  | PList xs | PSet xs => negb (bool_decide (xs = []))
  | PDict kvs => negb (bool_decide (kvs = []))
  | _ => true
  end.

Definition opt_str (o : option string) : pyobj :=
  match o with Some s => PStr s | None => PNone end.

Definition opt_float (o : option Z) : pyobj :=
  match o with Some t => PFloat t | None => PNone end.

(** [a != b] on what the module keeps under ['chain_mtime']: [None] or a
    number.  Anything else differs from a modification time. *)
Definition py_ne (a b : pyobj) : bool :=
  match a, b with
  | PNone, PNone => false
  | PFloat x, PFloat y | PInt x, PInt y | PFloat x, PInt y | PInt x, PFloat y =>
      negb (x =? y)
  | _, _ => true
  end.

(** [time.ctime(x)]: [None] is the current time, a number is formatted if
    the platform can, anything else is a [TypeError]. *)
Definition ctime `{Runtime} (x : pyobj) : result unit :=
  match x with
  | PNone => Ok tt
  | PFloat t | PInt t => time_ctime t
  | PBool b => time_ctime (if b then 1 else 0)
  | _ => Raise TypeError
  end.

(** The cache entry [_process] builds. *)
Definition make_entry (data : pydict) (stop : bool) (ci : chain_info_t) : pyobj :=
  PDict [ (KStr "data", PDict data);
          (KStr "stopped", PBool stop);
          (KStr "chain_repr", opt_str (chain_repr ci));
          (KStr "chain_mtime", opt_float (chain_mtime ci)) ].

Fixpoint opt_assoc_set {V} (k : option string) (v : V)
    (d : list (option string * V)) : list (option string * V) :=
  match d with
  | [] => [(k, v)]
  | (k', v') :: d' =>
      if decide (k' = k) then (k', v) :: d' else (k', v') :: opt_assoc_set k v d'
  end.

Fixpoint opt_assoc_get {V} (k : option string)
    (d : list (option string * V)) : result V :=
  match d with
  | [] => Raise KeyError
  | (k', v) :: d' => if decide (k' = k) then Ok v else opt_assoc_get k d'
  end.

Section Engine.
Context `{Runtime}.
Variable self : PickleCache.

(** [super(PickleCache, self).process(data)] *)
Definition super_process : M unit := fun st =>
  let '(data', outcome) := Chain_process (modules self) (st_data st) in
  let st' := {| st_world := st_world st; st_data := data' |} in
  match emit (Ran (st_data st)) st' with
  | (st'', _) =>
      (st'', match outcome with
             | None => Ok tt
             | Some e => Raise e
             end)
  end.

Definition check_cache_exists : M bool :=
  data ← get_data;
  file ← lift (get_cache_file self data);
  log "debug" ("Cache: " +:+ file);;
  path_exists file.

(** The entry holds the record itself, which nothing touches between
    [_process] and the dump that follows it. *)
Definition _process (cache : option (list (option string * pyobj)))
    : M (list (option string * pyobj) * bool) :=
  stop ← try_catch StopIteration (super_process;; mret false) (mret true);
  data_to_save ← get_data;
  let cache := default [] cache in
  let cache :=
    opt_assoc_set (chain_hash (chain_info self))
      (make_entry data_to_save stop (chain_info self)) cache in
  mret (cache, stop).

Definition _check_time_consistency (cache_mtime chain_mtime : pyobj) : M unit :=
  if py_ne cache_mtime chain_mtime then
    lift (ctime chain_mtime);;
    lift (ctime cache_mtime);;
    log "warning" "Modification times do not correspond."
  else mret tt.

(** [for key, value in retrieved_data.items(): data[key] = value] *)
Fixpoint merge_items (items : pydict) : M unit :=
  match items with
  | [] => mret tt
  | (key, value) :: rest =>
      data ← get_data;
      set_data (dict_set key value data);;
      merge_items rest
  end.

(** The [try] block of [process]: read the entry, replay a stop, merge. *)
Definition load_cached (file : string) : M bool :=
  log "info" "Found in cache, skipping chain";;
  content ← read_file file;
  gc_disable;;
  cache ← lift (pickle_load content);
  gc_enable;;
  retrieved_data ← lift (subscript cache "data");
  stop ← lift (subscript cache "stopped");
  if truthy stop then raise StopIteration
  else
    cache_mtime ← lift (subscript cache "chain_mtime");
    _check_time_consistency cache_mtime (opt_float (chain_mtime (chain_info self)));;
    items ← lift (py_items retrieved_data);
    merge_items items;;
    mret true.

(** The [except EOFError] block. *)
Definition drop_corrupted (file : string) : M bool :=
  log "warning"
    ("Failed to load cache item " +:+ file +:+ " (corrupted file will be deleted)");;
  os_unlink file;;
  mret false.

(** The [if not loaded] block. *)
Definition run_and_store (file : string) : M unit :=
  log "debug" "Not found in cache, processing chain";;
  '(cache, stop) ← _process (Some []);
  cache ← lift (opt_assoc_get (chain_hash (chain_info self)) cache);
  open_wb file;;
  content ← lift (pickle_dump cache);
  write_file file content;;
  try_catch OSError (os_chmod file RWRWRW) (mret tt).

Definition process_m : M unit :=
  data ← get_data;
  file ← lift (get_cache_file self data);
  exists_ ← check_cache_exists;
  loaded ←
    (if exists_ : bool then
       if force self then
         log "info" "Item found in cache but force=True";; mret false
       else try_catch EOFError (load_cached file) (drop_corrupted file)
     else mret false) : M bool;
  if negb loaded then run_and_store file else mret tt.

(** [process(data)] in the world [w]: the world and the record it leaves,
    and whether it returned or raised. *)
Definition process (data : pydict) (w : world) : world * pydict * result unit :=
  match process_m {| st_world := w; st_data := data |} with
  | (st, r) => (st_world st, st_data st, r)
  end.

End Engine.

(** ** The outcomes of the paths of [process]

    The worlds and records the paths of [process] lead to, named so that the
    theorems can state them. *)

Definition on_world (f : world -> world) (st : state) : state :=
  {| st_world := f (st_world st); st_data := st_data st |}.

(** [os.chmod] under [try: ... except OSError: pass]. *)
Definition chmod_world (file : string) (w : world) : world :=
  if bool_decide (file ∈ chmod_refused w) then w
  else with_modes (<[file := RWRWRW]> (modes w)) w.

(** The effect of the merge loop on the record. *)
Definition merge_dict (items data : pydict) : pydict :=
  foldl (fun d kv => dict_set kv.1 kv.2 d) data items.

(** Whether the pipeline stopped early; the exception when it failed
    otherwise. *)
Definition stop_flag (outcome : option exc) : result bool :=
  match outcome with
  | None => Ok false
  | Some StopIteration => Ok true
  | Some e => Raise e
  end.

(** After the entry was read: logged, collector switched off and on again. *)
Definition found_world (w : world) : world :=
  with_gc true (add_events [Log "info" "Found in cache, skipping chain"] w).

Definition warn_world (cache_mtime chain_mtime : pyobj) (w : world) : world :=
  if py_ne cache_mtime chain_mtime
  then add_events [Log "warning" "Modification times do not correspond."] w
  else w.


(** After the miss path: the pipeline ran on [ran], the entry was written. *)
Definition stored_world (file : string) (content : bytes) (ran : pydict)
    (w : world) : world :=
  chmod_world file
    (with_fs (<[file := content]> (fs w))
       (add_events [Log "debug" "Not found in cache, processing chain"; Ran ran] w)).

Definition cache_log (file : string) : event := Log "debug" ("Cache: " +:+ file).

(** ** Chains and codecs the fingerprint is stated for *)




(** The order [sorted] puts keys and items in. *)
Definition key_le (a b : pykey) : Prop := key_leb a b = true.

Definition item_le (x y : pykey * pyobj) : Prop := key_le x.1 y.1.

(** [vars(obj).items()] of an instance with attributes [attrs]. *)
Definition vars_items (attrs : list (string * pyobj)) : pydict :=
  map (fun kv => (KStr kv.1, kv.2)) attrs.


(** *** Structural identity

    Two objects have the same structure when they differ at most in the
    internal order of their unordered parts: the attributes of an instance,
    the entries of a dict, the elements of a set, the keywords of a partial
    application. *)

Definition entries_rel {K} (Q : pyobj -> pyobj -> Prop) (x y : K * pyobj) : Prop :=
  x.1 = y.1 ∧ Q x.2 y.2.





(** [n] lists around [x]: [x] sits [n] levels below the outermost list. *)
Fixpoint nest (n : nat) (x : pyobj) : pyobj :=
  match n with
  | O => x
  | S n' => PList [nest n' x]
  end.

(** ** A small runtime to run the engine on concrete inputs

    A codec with a tagged, length-prefixed format, a pipeline whose units set
    a field or stop, and a [repr] that names the class.  The theorems below
    hold for every runtime; this one evaluates them. *)

Module Sample.

Definition decimal (z : Z) : bytes := b_ (NilZero.string_of_int (Z.to_int z)).

Definition dumps_str (s : string) : bytes :=
  b_ "S" ++ decimal (Z.of_nat (String.length s)) ++ b_ ":" ++ b_ s.

Definition dumps_key (k : pykey) : bytes :=
  match k with
  | KStr s => dumps_str s
  | KInt z => b_ "I" ++ decimal z ++ b_ ";"
  end.

Fixpoint dumps (o : pyobj) : result bytes :=
  let all := fix all (xs : list pyobj) : result bytes :=
    match xs with
    | [] => Ok []
    | x :: xs' => a ← dumps x; b ← all xs'; Ok (a ++ b)
    end in
  let attrs := fix attrs (kvs : list (string * pyobj)) : result bytes :=
    match kvs with
    | [] => Ok []
    | (k, v) :: kvs' => a ← dumps v; b ← attrs kvs'; Ok (dumps_str k ++ a ++ b)
    end in
  match o with
  | PNone => Ok (b_ "N")
  | PBool true => Ok (b_ "T")
  | PBool false => Ok (b_ "F")
  | PInt z => Ok (b_ "I" ++ decimal z ++ b_ ";")
  | PFloat t => Ok (b_ "R" ++ decimal t ++ b_ ";")
  | PStr s => Ok (dumps_str s)
  | PList xs => r ← all xs; Ok (b_ "L" ++ decimal (Z.of_nat (length xs)) ++ b_ ":" ++ r)
  | PSet xs => r ← all xs; Ok (b_ "E" ++ decimal (Z.of_nat (length xs)) ++ b_ ":" ++ r)
  | PDict kvs =>
      r ← (fix entries (kvs : pydict) : result bytes :=
             match kvs with
             | [] => Ok []
             | (k, v) :: kvs' =>
                 a ← dumps v; b ← entries kvs'; Ok (dumps_key k ++ a ++ b)
             end) kvs;
      Ok (b_ "D" ++ decimal (Z.of_nat (length kvs)) ++ b_ ":" ++ r)
  | PInst c kvs =>
      r ← attrs kvs;
      Ok (b_ "O" ++ dumps_str (cls_name c) ++ decimal (Z.of_nat (length kvs)) ++ b_ ":" ++ r)
  | PFunc name =>
      (* functions are pickled by reference, which a lambda does not have *)
      if bool_decide (name = "<lambda>") then Raise PicklingError
      else Ok (b_ "G" ++ dumps_str name)
  | PPartial func kvs =>
      f ← dumps func; r ← attrs kvs;
      Ok (b_ "P" ++ f ++ decimal (Z.of_nat (length kvs)) ++ b_ ":" ++ r)
  | POpaque _ => Raise TypeError
  end.

(** Reading back.  Running out of input is [EOFError]. *)

Definition digit (b : byte) : option N :=
  let n := Byte.to_N b in
  if ((48 <=? n) && (n <=? 57))%N then Some (n - 48)%N else None.

Fixpoint read_num (bs : bytes) (acc : N) : result (N * bytes) :=
  match bs with
  | [] => Raise EOFError
  | b :: rest =>
      match digit b with
      | Some d => read_num rest (10 * acc + d)%N
      | None => Ok (acc, rest)
      end
  end.

Definition read_nat (bs : bytes) : result (nat * bytes) :=
  '(n, rest) ← read_num bs 0%N; Ok (N.to_nat n, rest).

Definition read_int (bs : bytes) : result (Z * bytes) :=
  match bs with
  | [] => Raise EOFError
  | b :: rest =>
      if Byte.eqb b "-"%byte
      then '(n, rest') ← read_num rest 0%N; Ok (- Z.of_N n, rest')
      else '(n, rest') ← read_num bs 0%N; Ok (Z.of_N n, rest')
  end.

Definition read_str (bs : bytes) : result (string * bytes) :=
  '(n, rest) ← read_nat bs;
  if bool_decide (n ≤ length rest)%nat
  then Ok (string_of_list_byte (take n rest), drop n rest)
  else Raise EOFError.

Fixpoint parse (fuel : nat) (bs : bytes) : result (pyobj * bytes) :=
  match fuel with
  | O => Raise RecursionError
  | S fuel' =>
      let many := fix many (n : nat) (bs : bytes) : result (list pyobj * bytes) :=
        match n with
        | O => Ok ([], bs)
        | S n' =>
            '(x, bs) ← parse fuel' bs;
            '(xs, bs) ← many n' bs;
            Ok (x :: xs, bs)
        end in
      let entries := fix entries (n : nat) (bs : bytes) : result (pydict * bytes) :=
        match n with
        | O => Ok ([], bs)
        | S n' =>
            '(k, bs) ← parse fuel' bs;
            key ← match k with
                   | PStr s => Ok (KStr s)
                   | PInt z => Ok (KInt z)
                   | _ => Raise UnpicklingError
                   end;
            '(v, bs) ← parse fuel' bs;
            '(kvs, bs) ← entries n' bs;
            Ok ((key, v) :: kvs, bs)
        end in
      match bs with
      | [] => Raise EOFError
      | tag :: rest =>
          if Byte.eqb tag "N"%byte then Ok (PNone, rest)
          else if Byte.eqb tag "T"%byte then Ok (PBool true, rest)
          else if Byte.eqb tag "F"%byte then Ok (PBool false, rest)
          else if Byte.eqb tag "I"%byte then
            '(z, rest) ← read_int rest; Ok (PInt z, rest)
          else if Byte.eqb tag "R"%byte then
            '(z, rest) ← read_int rest; Ok (PFloat z, rest)
          else if Byte.eqb tag "S"%byte then
            '(s, rest) ← read_str rest; Ok (PStr s, rest)
          else if Byte.eqb tag "L"%byte then
            '(n, rest) ← read_nat rest;
            '(xs, rest) ← many n rest; Ok (PList xs, rest)
          else if Byte.eqb tag "E"%byte then
            '(n, rest) ← read_nat rest;
            '(xs, rest) ← many n rest; Ok (PSet xs, rest)
          else if Byte.eqb tag "D"%byte then
            '(n, rest) ← read_nat rest;
            '(kvs, rest) ← entries n rest; Ok (PDict kvs, rest)
          else Raise UnpicklingError
      end
  end.

Definition loads (bs : bytes) : result pyobj :=
  '(o, _) ← parse (S (length bs)) bs; Ok o.

Definition repr (o : pyobj) : string := "<" +:+ class_name o +:+ ">".

(** The units of the sample pipeline: an instance of class [SetField]
    writes its [value] under its [key], an instance of class [Stop] ends the
    run with [StopIteration], an instance of class [Fail] with [KeyError];
    other units leave the record alone. *)
Fixpoint run (units : list pyobj) (data : pydict) : pydict * option exc :=
  match units with
  | [] => (data, None)
  | PInst c attrs :: rest =>
      if bool_decide (cls_name c = "SetField") then
        match assoc "key" attrs, assoc "value" attrs with
        | Some (PStr k), Some v => run rest (dict_set (KStr k) v data)
        | _, _ => (data, Some KeyError)
        end
      else if bool_decide (cls_name c = "Stop") then (data, Some StopIteration)
      else if bool_decide (cls_name c = "Fail") then (data, Some KeyError)
      else run rest data
  | _ :: rest => run rest data
  end.

(** [time.ctime] where [time_t] has 64 bits and the zone is UTC, times
    counted in seconds: the years [localtime] holds end with 2147485547 and
    begin with -2147481748. *)
Definition ctime_utc (t : Z) : result unit :=
  if (t <? - 2 ^ 63) || (2 ^ 63 <=? t) then Raise OverflowError
  else if (t <? -67768040609740800) || (67768036191676799 <? t) then Raise OSError
  else Ok tt.

Definition runtime : Runtime := {|
  pickle_dumps := dumps;
  pickle_dump := dumps;
  pickle_load := loads;
  py_repr := repr;
  time_ctime := ctime_utc;
  Chain_process := run;
  recursion_limit := 1000
|}.

#[local] Existing Instance runtime.

Definition unit_class (name : string) : pyclass :=
  {| cls_name := name; cls_has_process := true; cls_mtime := Some 1700000000 |}.

Definition SetField (k : string) (v : pyobj) : pyobj :=
  PInst (unit_class "SetField") [("key", PStr k); ("value", v)].

Definition Stop : pyobj := PInst (unit_class "Stop") [].

Definition empty_world : world :=
  {| fs := ∅; gc_enabled := true; modes := ∅; chmod_refused := ∅; trace := [] |}.

(** An engine wrapping [units] before its first [hash_chain]. *)
Definition fresh (units : list pyobj) (force : bool) (max_recursion_level : nat)
    : PickleCache :=
  {| directory := "/cache"; force := force; data_key := KStr "id";
     max_recursion_level := max_recursion_level; modules := units;
     chain_info := initial_chain_info |}.

(** The engine as [__init__] leaves it: [hash_chain] has run (and the
    engine is left as it was when the fingerprint could not be computed). *)
Definition new (units : list pyobj) (force : bool) (max_recursion_level : nat)
    : PickleCache :=
  match hash_chain (fresh units force max_recursion_level) with
  | Ok self => self
  | Raise _ => fresh units force max_recursion_level
  end.

(** The value of a call that does not raise. *)
Definition the {A} (d : A) (r : result A) : A :=
  match r with
  | Ok a => a
  | Raise _ => d
  end.

Definition file_of (self : PickleCache) (data : pydict) : string :=
  the EmptyString (get_cache_file self data).

Definition content_of (w : world) (file : string) : bytes :=
  default [] (fs w !! file).

Definition entry_of (w : world) (file : string) : pyobj :=
  match pickle_load (content_of w file) with
  | Ok o => o
  | Raise _ => PNone
  end.

Definition world_after (r : world * pydict * result unit) : world := r.1.1.

(** A pipeline that sets a field and then stops early, and its first run
    on the record with [id] 7. *)
Definition stopping : PickleCache := new [SetField "x" (PInt 1); Stop] false 10.

Definition record7 : pydict := [(KStr "id", PInt 7)].

Definition first_stop : world * pydict * result unit :=
  process stopping record7 empty_world.

(** A pipeline that completes, its first run, and a record that comes with
    a field of its own. *)
Definition completing : PickleCache :=
  new [SetField "x" (PInt 1); SetField "y" (PStr "b")] false 10.


Definition record7' : pydict :=
  [(KStr "id", PInt 7); (KStr "x", PInt 0); (KStr "z", PNone)].



(** A world in which the cache file of [record7] under [completing] was
    truncated to zero bytes. *)
Definition truncated : world :=
  with_fs {[ file_of completing record7 := [] ]} empty_world.

(** A unit that holds a lock. *)
Definition Locked : pyobj := PInst (unit_class "Locked") [("lock", POpaque "lock")].

(** A unit with the given attributes, in the order they were set. *)
Definition Tagger (attrs : list (string * pyobj)) : pyobj :=
  PInst (unit_class "Tagger") attrs.




(** The units of [completing] after an attribute of one was changed. *)
Definition changed_units : list pyobj :=
  [SetField "x" (PInt 2); SetField "y" (PStr "b")].

Definition set_modules (self : PickleCache) (units : list pyobj) : PickleCache :=
  {| directory := directory self; force := force self; data_key := data_key self;
     max_recursion_level := max_recursion_level self; modules := units;
     chain_info := chain_info self |}.

End Sample.

(** * The rest of the module *)

(** ** Construction: [__init__]

    What [__init__] touches outside the engine: the file mode creation mask
    of the process, and the paths that exist, each with its permission
    bits. *)

Record os_env : Type := {
  umask : Z;
  dirs : gmap string Z
}.

Definition OS (A : Type) : Type := os_env -> os_env * result A.

(** [os.umask(mask)]: sets the mask and returns the previous one. *)
Definition os_umask (mask : Z) : OS Z := fun o =>
  ({| umask := mask; dirs := dirs o |}, Ok (umask o)).

(** [os.path.exists(directory)] *)
Definition dir_exists (directory : string) (o : os_env) : bool :=
  bool_decide (is_Some (dirs o !! directory)).

(** [os.makedirs] is the platform's.  From the path, the mode, the mask in
    force and the paths that exist it gives the paths that exist afterwards
    (the directory and the parents it had to make, or some of them when it
    fails on the way) and whether it raised. *)
Abbreviation makedirs_t :=
  (string -> Z -> Z -> gmap string Z -> gmap string Z * result unit).

(** What [mkdir] promises of a directory made with permission bits [mode]:
    when [os.makedirs] returns, the directory is there with the bits of
    [mode] that the mask leaves. *)
Definition makedirs_sets_rights (makedirs : makedirs_t) : Prop :=
  ∀ path mode mask ds ds',
    Z.land mode 511 = mode ->
    makedirs path mode mask ds = (ds', Ok tt) ->
    ds' !! path = Some (Z.land mode (Z.lnot mask)).

Section Construction.
Context `{Runtime}.

(** The units [Chain.__init__(chain)] leaves in [self.modules]; [Chain] is
    not part of this module. *)
Variable Chain_modules : option pyobj -> list pyobj.

Variable makedirs : makedirs_t.

(** [os.makedirs(directory, mode)] *)
Definition os_makedirs (directory : string) (mode : Z) : OS unit := fun o =>
  let '(ds, r) := makedirs directory mode (umask o) (dirs o) in
  ({| umask := umask o; dirs := ds |}, r).

(** The [try ... finally] of [__init__]: [original_umask] is what the
    [finally] block finds it to be. *)
Definition create_directory (directory : string) (dir_rights : Z) : OS unit := fun o =>
  let original_umask : option Z := None in
  let '(o1, r1) := os_umask 0 o in
  let original_umask :=
    match r1 with Ok u => Some u | Raise _ => original_umask end in
  let '(o2, r2) :=
    match r1 with
    | Ok _ => os_makedirs directory dir_rights o1
    | Raise e => (o1, Raise e)
    end in
  let o3 :=
    match original_umask with
    | Some u => (os_umask u o2).1
    | None => o2
    end in
  (o3, r2).

(** The fields as [__init__] assigns them, before [hash_chain]. *)
Definition unhashed (directory : string) (data_key : pykey)
    (units : list pyobj) (force : bool) (max_recursion_level : nat) : PickleCache :=
  {| directory := directory; force := force; data_key := data_key;
     max_recursion_level := max_recursion_level; modules := units;
     chain_info := initial_chain_info |}.

Definition PickleCache_init (directory : string) (data_key : pykey)
    (chain : option pyobj) (force : bool) (max_recursion_level : nat)
    (dir_rights : Z) : OS PickleCache := fun o =>
  let self :=
    unhashed directory data_key (Chain_modules chain) force max_recursion_level in
  match (match chain with
         | Some _ => hash_chain self
         | None => Ok self
         end) with
  | Raise e => (o, Raise e)
  | Ok self =>
      if dir_exists directory o then (o, Ok self)
      else
        match create_directory directory dir_rights o with
        | (o', Ok _) => (o', Ok self)
        | (o', Raise e) => (o', Raise e)
        end
  end.

End Construction.

(** ** What the theorems below speak of *)

Definition is_partial (o : pyobj) : bool :=
  match o with PPartial _ _ => true | _ => false end.

(** Two units are the same, or both partial applications. *)
Definition same_up_to_partial (a b : pyobj) : Prop :=
  a = b ∨ (is_partial a = true ∧ is_partial b = true).

(** The files other than [file] are the same in [st'] as in [st]. *)
Definition same_files_but (file : string) (st st' : state) : Prop :=
  ∀ f, f ≠ file -> fs (st_world st') !! f = fs (st_world st) !! f.

(** Whatever the state and the outcome, [m] leaves the state related to the
    one it started in. *)
Definition keeps {A} (R : state -> state -> Prop) (m : M A) : Prop :=
  ∀ st, R st (m st).1.

(** ** More concrete inputs *)

Module Cases.
Import Sample.
#[local] Existing Instance Sample.runtime.

(** A pipeline whose unit fails, with and without [force]. *)
Definition Fail : pyobj := PInst (unit_class "Fail") [].
Definition failing : PickleCache := new [Fail] false 10.
Definition forced_failing : PickleCache := new [Fail] true 10.

(** The pipeline of [completing], with [force]. *)
Definition forcing : PickleCache :=
  new [SetField "x" (PInt 1); SetField "y" (PStr "b")] true 10.

(** A world with one file, at the cache path of [data] under [self]. *)
Definition world_with (self : PickleCache) (data : pydict) (content : bytes) : world :=
  with_fs {[ file_of self data := content ]} empty_world.

(** Records: without the identity field, with a lock for an identity, and
    with a lock in another field. *)
Definition nameless : pydict := [(KStr "name", PInt 1)].
Definition lock_id : pydict := [(KStr "id", POpaque "lock")].
Definition with_connection : pydict :=
  [(KStr "id", PInt 7); (KStr "conn", POpaque "lock")].

(** An entry for [record7] that holds a modification time of 1e20
    seconds. *)
Definition far_entry : pyobj :=
  PDict [ (KStr "data", PDict [(KStr "id", PInt 7); (KStr "x", PInt 1)]);
          (KStr "stopped", PBool false);
          (KStr "chain_repr", PNone);
          (KStr "chain_mtime", PFloat (10 ^ 20)) ].

(** Two partial applications, of two functions. *)
Definition partial_f : pyobj := PPartial (PFunc "f") [("k", PInt 1)].
Definition partial_g : pyobj := PPartial (PFunc "g") [].

(** Two dicts with the same keys, of mixed types, and other values. *)
Definition mixed_1 : pydict := [(KInt 1, PStr "a"); (KStr "x", PInt 2)].
Definition mixed_2 : pydict := [(KInt 1, PStr "b"); (KStr "x", PInt 3)].

(** A process with the usual mask 0o022, where nothing exists yet. *)
Definition masked : os_env := {| umask := 18; dirs := ∅ |}.

(** The parents of a path: what stands before each of its slashes. *)
Fixpoint parents_from (pre path : string) : list string :=
  match path with
  | EmptyString => []
  | String c rest =>
      (if Ascii.eqb c "/" && negb (String.eqb pre EmptyString) then [pre] else [])
      ++ parents_from (pre +:+ String c EmptyString) rest
  end.

Definition parents (path : string) : list string := parents_from EmptyString path.

(** An [os.makedirs] that is never refused: the parents that are missing
    are made with the bits 0o777 that the mask leaves, the directory with
    those of [mode]; a path that exists is an error. *)
Definition mkdirs : makedirs_t := fun path mode mask ds =>
  if bool_decide (is_Some (ds !! path)) then (ds, Raise OSError)
  else
    (<[path := Z.land mode (Z.lnot mask)]>
       (foldl (fun ds p =>
                 if bool_decide (is_Some (ds !! p)) then ds
                 else <[p := Z.land 511 (Z.lnot mask)]> ds)
          ds (parents path)),
     Ok tt).

(** [Chain.__init__] taken to keep the units of a list. *)
Definition units_of (chain : option pyobj) : list pyobj :=
  match chain with
  | Some (PList ms) => ms
  | _ => []
  end.

Definition init (chain : option pyobj) : OS PickleCache :=
  PickleCache_init units_of mkdirs "/srv/cache" (KStr "id") chain false 10 511.

End Cases.

(** * Properties *)

(** ** Test vectors of the digest *)

Example sha256_empty :
  Sha256.hexdigest [] =
  "e3b0c44298fc1c149afbf4c8996fb92427ae41e4649b934ca495991b7852b855"%string.
Proof. vm_compute. reflexivity. Qed.

Example sha256_abc :
  Sha256.hexdigest (b_ "abc") =
  "ba7816bf8f01cfea414140de5dae2223b00361a396177a9cb410ff61f20015ad"%string.
Proof. vm_compute. reflexivity. Qed.

Example sha256_two_blocks :
  Sha256.hexdigest
    (b_ "abcdbcdecdefdefgefghfghighijhijkijkljklmklmnlmnomnopnopq") =
  "248d6a61d20638b8e5c026930c3e6039a33ce45964ff2167f6ecedd419db06c1"%string.
Proof. vm_compute. reflexivity. Qed.

(** ** Running the monad *)

Lemma bind_run {A B} (m : M A) (k : A -> M B) st :
  (m ≫= k) st =
  match m st with
  | (st', Ok a) => k a st'
  | (st', Raise e) => (st', Raise e)
  end.
Proof. reflexivity. Qed.

Lemma ret_run {A} (a : A) st : (mret a : M A) st = (st, Ok a).
Proof. reflexivity. Qed.

Lemma lift_run {A} (r : result A) st : lift r st = (st, r).
Proof. reflexivity. Qed.

Lemma raise_run {A} e st : @raise A e st = (st, Raise e).
Proof. reflexivity. Qed.

Lemma get_data_run st : get_data st = (st, Ok (st_data st)).
Proof. reflexivity. Qed.

Lemma get_world_run st : get_world st = (st, Ok (st_world st)).
Proof. reflexivity. Qed.

Lemma set_data_run d st :
  set_data d st = ({| st_world := st_world st; st_data := d |}, Ok tt).
Proof. reflexivity. Qed.

Lemma upd_world_run f st : upd_world f st = (on_world f st, Ok tt).
Proof. reflexivity. Qed.

Lemma log_run level msg st :
  log level msg st = (on_world (add_events [Log level msg]) st, Ok tt).
Proof. reflexivity. Qed.

Lemma emit_run ev st : emit ev st = (on_world (add_events [ev]) st, Ok tt).
Proof. reflexivity. Qed.

Lemma gc_disable_run st : gc_disable st = (on_world (with_gc false) st, Ok tt).
Proof. reflexivity. Qed.

Lemma gc_enable_run st : gc_enable st = (on_world (with_gc true) st, Ok tt).
Proof. reflexivity. Qed.

Lemma path_exists_run file st :
  path_exists file st = (st, Ok (bool_decide (is_Some (fs (st_world st) !! file)))).
Proof. reflexivity. Qed.

Lemma read_file_run file st :
  read_file file st =
  (st, match fs (st_world st) !! file with
       | Some content => Ok content
       | None => Raise OSError
       end).
Proof. unfold read_file. rewrite bind_run, get_world_run. by destruct (_ !! _). Qed.

Lemma open_wb_run file st :
  open_wb file st = (on_world (fun w => with_fs (<[file := []]> (fs w)) w) st, Ok tt).
Proof. reflexivity. Qed.

Lemma write_file_run file content st :
  write_file file content st =
  (on_world (fun w => with_fs (<[file := content]> (fs w)) w) st, Ok tt).
Proof. reflexivity. Qed.

Lemma os_unlink_run file content st :
  fs (st_world st) !! file = Some content ->
  os_unlink file st =
  (on_world (fun w => add_events [Unlinked file] (with_fs (delete file (fs w)) w)) st, Ok tt).
Proof.
  intros Hfs. unfold os_unlink. rewrite bind_run, get_world_run, Hfs. reflexivity.
Qed.

Lemma try_catch_run {A} e (m h : M A) st :
  try_catch e m h st =
  match m st with
  | (st', Ok a) => (st', Ok a)
  | (st', Raise e') => if decide (e' = e) then h st' else (st', Raise e')
  end.
Proof. reflexivity. Qed.

Lemma chmod_run file st :
  try_catch OSError (os_chmod file RWRWRW) (mret tt) st =
  (on_world (chmod_world file) st, Ok tt).
Proof.
  rewrite try_catch_run. unfold os_chmod, chmod_world, on_world.
  rewrite bind_run, get_world_run.
  destruct (bool_decide _); [|reflexivity].
  rewrite raise_run. destruct st. reflexivity.
Qed.

Lemma st_data_on_world f st : st_data (on_world f st) = st_data st.
Proof. reflexivity. Qed.

Lemma st_world_on_world f st : st_world (on_world f st) = f (st_world st).
Proof. reflexivity. Qed.

Create Rewrite HintDb run.
#[global] Hint Rewrite st_data_on_world st_world_on_world : run.
#[global] Hint Rewrite @bind_run @ret_run @lift_run @raise_run get_data_run get_world_run
  set_data_run upd_world_run log_run emit_run gc_disable_run gc_enable_run
  path_exists_run read_file_run open_wb_run write_file_run
  : run.

Ltac run := repeat (autorewrite with run; cbv beta iota).

Section EngineFacts.
Context `{Runtime}.
Variable self : PickleCache.

Lemma check_cache_exists_run file st :
get_cache_file self (st_data st) = Ok file ->
check_cache_exists self st =
(on_world (add_events [Log "debug" ("Cache: " +:+ file)]) st,
 Ok (bool_decide (is_Some (fs (st_world st) !! file)))).
Proof.
intros Hfile. unfold check_cache_exists. run. rewrite Hfile. run. reflexivity.
Qed.


Lemma merge_items_run items st :
merge_items items st =
({| st_world := st_world st; st_data := merge_dict items (st_data st) |}, Ok tt).
Proof.
revert st. induction items as [|[k v] items IH]; intros st.
- destruct st. reflexivity.
- cbn [merge_items]. run. rewrite IH. reflexivity.
Qed.

Lemma super_process_run st :
super_process self st =
({| st_world := add_events [Ran (st_data st)] (st_world st);
    st_data := (Chain_process (modules self) (st_data st)).1 |},
 match (Chain_process (modules self) (st_data st)).2 with
 | None => Ok tt
 | Some e => Raise e
 end).
Proof. unfold super_process. destruct (Chain_process _ _). reflexivity. Qed.

Lemma opt_assoc_get_set {V} k (v : V) d :
opt_assoc_get k (opt_assoc_set k v d) = Ok v.
Proof.
induction d as [|[k' v'] d IH]; cbn.
- by rewrite decide_True.
- destruct (decide (k' = k)); cbn.
  + by rewrite decide_True.
  + by rewrite decide_False.
Qed.

Lemma _process_run cache st :
_process self cache st =
let data' := (Chain_process (modules self) (st_data st)).1 in
let st' := {| st_world := add_events [Ran (st_data st)] (st_world st);
              st_data := data' |} in
(st',
 stop ← stop_flag (Chain_process (modules self) (st_data st)).2;
 Ok (opt_assoc_set (chain_hash (chain_info self))
       (make_entry data' stop (chain_info self)) (default [] cache), stop)).
Proof.
unfold _process. rewrite bind_run, try_catch_run, bind_run, super_process_run.
destruct (Chain_process _ _) as [d' [e|]]; cbn [fst snd stop_flag]; run.
- destruct e; reflexivity.
- reflexivity.
Qed.

Lemma run_and_store_ok file st stop content :
let data' := (Chain_process (modules self) (st_data st)).1 in
stop_flag (Chain_process (modules self) (st_data st)).2 = Ok stop ->
pickle_dump (make_entry data' stop (chain_info self)) = Ok content ->
run_and_store self file st =
({| st_world := stored_world file content (st_data st) (st_world st);
    st_data := data' |}, Ok tt).
Proof.
intros data' Hstop Hdump. unfold run_and_store. run.
rewrite _process_run. cbv zeta. run. rewrite Hstop. cbn [mbind result_bind]. run.
rewrite opt_assoc_get_set. run. fold data'. rewrite Hdump. run.
rewrite chmod_run. unfold on_world; cbn [st_world st_data]. do 2 f_equal.
unfold stored_world, chmod_world, with_modes, with_fs, add_events; cbn.
rewrite <- app_assoc, insert_insert_eq. reflexivity.
Qed.


Lemma load_cached_stopped file st content cache rd s :
fs (st_world st) !! file = Some content ->
pickle_load content = Ok cache ->
subscript cache "data" = Ok rd ->
subscript cache "stopped" = Ok s ->
truthy s = true ->
load_cached self file st = (on_world found_world st, Raise StopIteration).
Proof.
intros Hfs Hload Hd Hs Ht. unfold load_cached. run.
cbn [add_events fs]. rewrite Hfs. run. rewrite Hload. run.
rewrite Hd. run. rewrite Hs. run. rewrite Ht. run. reflexivity.
Qed.

Lemma _check_time_consistency_run cache_mtime chain_mtime st :
  (py_ne cache_mtime chain_mtime = true ->
   ctime chain_mtime = Ok tt ∧ ctime cache_mtime = Ok tt) ->
  _check_time_consistency cache_mtime chain_mtime st =
  (on_world (warn_world cache_mtime chain_mtime) st, Ok tt).
Proof.
  intros Hc. unfold _check_time_consistency, warn_world.
  destruct (py_ne _ _); run.
  - destruct Hc as [H2 H1]; [done|].
    rewrite H2. run. rewrite H1. run. reflexivity.
  - destruct st as [[] ?]. reflexivity.
Qed.

(** The warning is not written when [time.ctime] raises on one of the two
    times: the engine's is formatted first. *)
Lemma _check_time_consistency_raises cache_mtime chain_mtime e st :
  py_ne cache_mtime chain_mtime = true ->
  ctime chain_mtime = Raise e ∨
    (ctime chain_mtime = Ok tt ∧ ctime cache_mtime = Raise e) ->
  _check_time_consistency cache_mtime chain_mtime st = (st, Raise e).
Proof.
  intros Hne Hc. unfold _check_time_consistency. rewrite Hne. run.
  destruct Hc as [H2|[H2 H1]]; rewrite H2; run; [done|].
  rewrite H1. run. reflexivity.
Qed.


Lemma load_cached_merge file st content cache items s m :
fs (st_world st) !! file = Some content ->
pickle_load content = Ok cache ->
subscript cache "data" = Ok (PDict items) ->
subscript cache "stopped" = Ok s ->
truthy s = false ->
subscript cache "chain_mtime" = Ok m ->
(py_ne m (opt_float (chain_mtime (chain_info self))) = true ->
 ctime (opt_float (chain_mtime (chain_info self))) = Ok tt ∧ ctime m = Ok tt) ->
load_cached self file st =
({| st_world :=
      warn_world m (opt_float (chain_mtime (chain_info self)))
        (found_world (st_world st));
    st_data := merge_dict items (st_data st) |}, Ok true).
Proof.
intros Hfs Hload Hd Hs Ht Hm Hc. unfold load_cached. run.
cbn [add_events fs]. rewrite Hfs. run. rewrite Hload. run.
rewrite Hd. run. rewrite Hs. run. rewrite Ht. run. rewrite Hm. run.
rewrite _check_time_consistency_run by done. run.
cbn [py_items]. run. rewrite merge_items_run. run. reflexivity.
Qed.



(** The lookup phase of [process], up to the fate of [loaded]. *)
Lemma process_prefix data w file :
get_cache_file self data = Ok file ->
process self data w =
let st := {| st_world := add_events [Log "debug" ("Cache: " +:+ file)] w;
             st_data := data |} in
let '(st', r) :=
  (if bool_decide (is_Some (fs w !! file)) then
     if force self then
       (on_world (add_events [Log "info" "Item found in cache but force=True"]) st,
        Ok false)
     else try_catch EOFError (load_cached self file) (drop_corrupted file) st
   else (st, Ok false)) in
let '(st'', r') :=
  match r with
  | Ok loaded => (if negb loaded then run_and_store self file else mret tt) st'
  | Raise e => (st', Raise e)
  end in
(st_world st'', st_data st'', r').
Proof.
intros Hfile. unfold process, process_m. run. cbn [st_data]. rewrite Hfile. run.
rewrite (check_cache_exists_run file) by done. run. cbn [st_world].
unfold on_world at 1. cbn [st_world st_data].
destruct (bool_decide _); [destruct (force self)|]; run; try reflexivity.
destruct (try_catch _ _ _ _) as [st' [a|e]]; reflexivity.
Qed.


(** *** Lookups in the merged record *)

Lemma dict_get_set k k' v d :
  dict_get k (dict_set k' v d) = if decide (k' = k) then Some v else dict_get k d.
Proof.
  induction d as [|[k0 v0] d IH]; cbn.
  - reflexivity.
  - destruct (decide (k0 = k')) as [->|Hne]; cbn.
    + destruct (decide (k' = k)); reflexivity.
    + rewrite IH. destruct (decide (k0 = k)) as [->|]; [|reflexivity].
      by rewrite decide_False.
Qed.

Lemma dict_get_None k (d : pydict) : k ∉ d.*1 -> dict_get k d = None.
Proof.
  induction d as [|[k0 v0] d IH]; cbn; [done|].
  rewrite not_elem_of_cons. intros [Hne Hd].
  rewrite decide_False by done. auto.
Qed.

Lemma dict_get_merge k items data :
  NoDup items.*1 ->
  dict_get k (merge_dict items data) =
  match dict_get k items with
  | Some v => Some v
  | None => dict_get k data
  end.
Proof.
  unfold merge_dict. revert data.
  induction items as [|[k0 v0] items IH]; intros data Hnd; cbn.
  - reflexivity.
  - apply NoDup_cons in Hnd as [Hk0 Hnd]. rewrite IH by done.
    destruct (decide (k0 = k)) as [->|Hne].
    + rewrite dict_get_None by done. rewrite dict_get_set. by rewrite decide_True.
    + rewrite dict_get_set. by rewrite decide_False.
Qed.

(** *** The paths of [process] *)

Lemma process_hit_stopped_run data w file content cache rd s :
  force self = false ->
  get_cache_file self data = Ok file ->
  fs w !! file = Some content ->
  pickle_load content = Ok cache ->
  subscript cache "data" = Ok rd ->
  subscript cache "stopped" = Ok s ->
  truthy s = true ->
  process self data w =
    (found_world (add_events [cache_log file] w), data, Raise StopIteration).
Proof.
  intros Hf Hfile Hfs Hload Hd Hs Ht.
  rewrite (process_prefix _ _ file) by done. cbv zeta.
  rewrite Hfs, bool_decide_eq_true_2, Hf by eauto.
  rewrite try_catch_run.
  rewrite (load_cached_stopped file _ content cache rd s) by done.
  rewrite decide_False by done. reflexivity.
Qed.

Lemma process_hit_merge_run data w file content cache items s m :
  force self = false ->
  get_cache_file self data = Ok file ->
  fs w !! file = Some content ->
  pickle_load content = Ok cache ->
  subscript cache "data" = Ok (PDict items) ->
  subscript cache "stopped" = Ok s ->
  truthy s = false ->
  subscript cache "chain_mtime" = Ok m ->
  (py_ne m (opt_float (chain_mtime (chain_info self))) = true ->
   ctime (opt_float (chain_mtime (chain_info self))) = Ok tt ∧ ctime m = Ok tt) ->
  process self data w =
    (warn_world m (opt_float (chain_mtime (chain_info self)))
       (found_world (add_events [cache_log file] w)),
     merge_dict items data, Ok tt).
Proof.
  intros Hf Hfile Hfs Hload Hd Hs Ht Hm Hc.
  rewrite (process_prefix _ _ file) by done. cbv zeta.
  rewrite Hfs, bool_decide_eq_true_2, Hf by eauto.
  rewrite try_catch_run.
  rewrite (load_cached_merge file _ content cache items s m) by done.
  reflexivity.
Qed.


Lemma process_miss_run data w file stop content' :
  let data' := (Chain_process (modules self) data).1 in
  get_cache_file self data = Ok file ->
  fs w !! file = None ->
  stop_flag (Chain_process (modules self) data).2 = Ok stop ->
  pickle_dump (make_entry data' stop (chain_info self)) = Ok content' ->
  process self data w =
    (stored_world file content' data (add_events [cache_log file] w), data', Ok tt).
Proof.
  intros data' Hfile Hfs Hstop Hdump.
  rewrite (process_prefix _ _ file) by done. cbv zeta.
  rewrite Hfs, bool_decide_eq_false_2 by (by intros [? ?]).
  cbn [negb]. rewrite (run_and_store_ok file _ stop content') by done.
  reflexivity.
Qed.

Lemma process_forced_run data w file content stop content' :
  let data' := (Chain_process (modules self) data).1 in
  force self = true ->
  get_cache_file self data = Ok file ->
  fs w !! file = Some content ->
  stop_flag (Chain_process (modules self) data).2 = Ok stop ->
  pickle_dump (make_entry data' stop (chain_info self)) = Ok content' ->
  process self data w =
    (stored_world file content' data
       (add_events [cache_log file; Log "info" "Item found in cache but force=True"] w),
     data', Ok tt).
Proof.
  intros data' Hf Hfile Hfs Hstop Hdump.
  rewrite (process_prefix _ _ file) by done. cbv zeta.
  rewrite Hfs, bool_decide_eq_true_2, Hf by eauto.
  cbn [negb]. rewrite (run_and_store_ok file _ stop content') by done.
  unfold on_world, add_events; cbn. rewrite <- app_assoc. reflexivity.
Qed.

Lemma fs_chmod_world file w : fs (chmod_world file w) = fs w.
Proof. unfold chmod_world. by destruct (bool_decide _). Qed.

Lemma trace_chmod_world file w : trace (chmod_world file w) = trace w.
Proof. unfold chmod_world. by destruct (bool_decide _). Qed.

Lemma gc_chmod_world file w : gc_enabled (chmod_world file w) = gc_enabled w.
Proof. unfold chmod_world. by destruct (bool_decide _). Qed.



(** C10.  On a hit that is not forced and whose entry has [stopped] true,
    [process] raises the early-termination signal before it merges
    anything: whatever record the entry holds (the one the stopped run left,
    possibly partly mutated), the caller's record is as it was passed in;
    the pipeline is not run and no file changes. *)
Theorem process_hit_stopped_keeps_record data w file content cache rd s :
  force self = false ->
  get_cache_file self data = Ok file ->
  fs w !! file = Some content ->
  pickle_load content = Ok cache ->
  subscript cache "data" = Ok rd ->
  subscript cache "stopped" = Ok s ->
  truthy s = true ->
  let '(w', data', r) := process self data w in
  r = Raise StopIteration ∧ data' = data ∧ fs w' = fs w ∧
  trace w' = trace w ++ [cache_log file; Log "info" "Found in cache, skipping chain"].
Proof.
  intros Hf Hfile Hfs Hload Hd Hs Ht.
  rewrite (process_hit_stopped_run data w file content cache rd s) by done.
  repeat split. cbn. by rewrite <- app_assoc.
Qed.



End EngineFacts.

(** ** The fingerprint *)

Section FingerprintFacts.
Context `{Runtime}.
Variable self : PickleCache.

Lemma dump_part_ext rec1 rec2 acc x :
  rec1 x = rec2 x -> dump_part rec1 acc x = dump_part rec2 acc x.
Proof. intros Hx. unfold dump_part. by rewrite Hx. Qed.

Lemma dump_items_ext rec1 rec2 items acc :
  (∀ x, rec1 x = rec2 x) ->
  dump_items rec1 items acc = dump_items rec2 items acc.
Proof.
  intros Hrec. revert acc.
  induction items as [|[k v] items IH]; intros acc; cbn [dump_items]; [done|].
  rewrite (dump_part_ext rec1 rec2) by done.
  destruct (dump_part rec2 acc (key_obj k)) as [acc1|]; cbn [mbind result_bind]; [|done].
  rewrite (dump_part_ext rec1 rec2) by done.
  destruct (dump_part rec2 acc1 v) as [acc2|]; cbn [mbind result_bind]; [|done].
  apply IH.
Qed.

(** The depth guard bounds the recursion: any fuel above the distance to
    [max_recursion_level + 1] gives the same result, so the fuel of
    [_object_dump_to_string] never cuts a computation short. *)
Lemma dump_rec_fuel fuel1 fuel2 obj level :
  (S (max_recursion_level self) - level < fuel1)%nat ->
  (S (max_recursion_level self) - level < fuel2)%nat ->
  dump_rec self fuel1 obj level = dump_rec self fuel2 obj level.
Proof.
  revert fuel2 obj level.
  induction fuel1 as [|fuel1 IH]; intros fuel2 obj level H1 H2; [lia|].
  destruct fuel2 as [|fuel2]; [lia|]. cbn [dump_rec].
  destruct (max_recursion_level self <? level)%nat eqn:Hlvl; [done|].
  apply Nat.ltb_ge in Hlvl.
  destruct (encode_ascii (class_name obj)) as [d0|]; cbn [mbind result_bind]; [|done].
  destruct (match py_name obj with Some n => _ | None => _ end) as [d1|];
    cbn [mbind result_bind]; [|done].
  assert (Hitems : ∀ items,
    dump_items (fun x => dump_rec self fuel1 x (S level)) items d1 =
    dump_items (fun x => dump_rec self fuel2 x (S level)) items d1).
  { intros items. apply dump_items_ext. intros x. apply IH; lia. }
  destruct obj; try done;
    destruct (object_items _) as [items|]; cbn [mbind result_bind];
    try done; by rewrite Hitems.
Qed.

(** Beyond the maximum depth [_object_dump_to_string] returns its text
    literal and does not look at the object. *)
Lemma dump_rec_beyond_depth fuel obj level :
  (max_recursion_level self < level)%nat ->
  dump_rec self (S fuel) obj level = Ok (DText EmptyString).
Proof.
  intros Hlvl. cbn [dump_rec].
  by rewrite (proj2 (Nat.ltb_lt _ _) Hlvl).
Qed.

(** What the caller then does with a picklable value: the text cannot be
    added to the [bytes] accumulator, and the handler adds the pickle of the
    whole value. *)
Lemma dump_part_beyond_depth fuel level acc x p :
  (max_recursion_level self < S level)%nat ->
  pickle x = Ok p ->
  dump_part (fun x => dump_rec self (S fuel) x (S level)) acc x = Ok (acc ++ p).
Proof.
  intros Hlvl Hp. unfold dump_part.
  rewrite dump_rec_beyond_depth by done. cbn. by rewrite Hp.
Qed.

(** *** No exception leaves the loop when the serializer takes what it is
    handed, or refuses it with [PicklingError] *)



Lemma dump_rec_list fuel ms level :
  (level ≤ max_recursion_level self)%nat ->
  dump_rec self (S fuel) (PList ms) level =
  (r ← dump_items (fun x => dump_rec self fuel x (S level))
         (enumerate_items ms) (b_ "list");
   Ok (DBytes r)).
Proof.
  intros Hlvl. cbn [dump_rec].
  replace (max_recursion_level self <? level)%nat with false
    by (symmetry; apply Nat.ltb_ge; lia).
  reflexivity.
Qed.


(** *** The modification time and the representation of a chain *)





(** C6.  For a record that has the identity field, whose value the codec
    serializes, and an engine whose fingerprint was computed, the cache
    path is the directory, a slash, the hexadecimal SHA-256 digest of the
    serialized value, and right after it the hexadecimal structural hash of
    the chain. *)
Theorem get_cache_file_is_directory_key_hash data v p h :
  dict_get (data_key self) data = Some v ->
  pickle v = Ok p ->
  chain_hash (chain_info self) = Some h ->
  get_cache_file self data = Ok (directory self +:+ "/" +:+ Sha256.hexdigest p +:+ h).
Proof.
  intros Hv Hp Hh. unfold get_cache_file, getitem.
  rewrite Hv. cbn [mbind result_bind]. rewrite Hp. cbn [mbind result_bind].
  by rewrite Hh.
Qed.

(** C7.  [hash_chain] computes the fingerprint anew exactly when the number
    of units differs from the recorded one.  With equal counts the engine,
    and so the four fields of [chain_info], is returned as it is, whatever
    the units now hold.  With different counts the engine it returns has
    the four fields of the current units: their number, their newest
    modification time, their structural hash and their representation,
    whatever was stored before, and is otherwise the same engine; when one
    of the three computations raises, so does [hash_chain]. *)
Theorem hash_chain_recomputes_iff_unit_count_differs :
  let ms := PList (modules self) in
  (length (modules self) = chain_len (chain_info self) ->
   hash_chain self = Ok self) ∧
  (length (modules self) ≠ chain_len (chain_info self) ->
   (∀ mtime hash repr,
      _get_chain_mtime ms = Ok mtime ->
      _get_chain_hash self ms = Ok hash ->
      _get_chain_repr ms = Ok repr ->
      ∃ self',
        hash_chain self = Ok self' ∧
        chain_len (chain_info self') = length (modules self) ∧
        chain_mtime (chain_info self') = Some mtime ∧
        chain_hash (chain_info self') = Some hash ∧
        chain_repr (chain_info self') = Some repr ∧
        directory self' = directory self ∧ force self' = force self ∧
        data_key self' = data_key self ∧
        max_recursion_level self' = max_recursion_level self ∧
        modules self' = modules self) ∧
   (is_ok (hash_chain self) =
      is_ok (_get_chain_mtime ms) && is_ok (_get_chain_hash self ms)
      && is_ok (_get_chain_repr ms))).
Proof.
  unfold hash_chain, compute_chain_info. cbv zeta. split; intros Hlen.
  - by rewrite decide_False by (by intros ?).
  - rewrite decide_True by done. split.
    + intros mtime hash repr -> -> ->. cbn [mbind result_bind].
      eexists. split; [reflexivity|]. by cbn.
    + destruct (_get_chain_mtime _); cbn [mbind result_bind is_ok andb]; [|done].
      destruct (_get_chain_hash _ _); cbn [mbind result_bind is_ok andb]; [|done].
      by destruct (_get_chain_repr _).
Qed.

End FingerprintFacts.

(** ** Sorted traversal *)

Section Sorting.

Lemma string_leb_trans a b c :
  String.leb a b = true -> String.leb b c = true -> String.leb a c = true.
Proof.
  unfold String.leb. revert b c.
  induction a as [|x a IH]; intros [|y b] [|z c]; cbn; try done.
  unfold Ascii.compare.
  destruct (N.compare_spec (N_of_ascii x) (N_of_ascii y)) as [Hxy|Hxy|Hxy];
    destruct (N.compare_spec (N_of_ascii y) (N_of_ascii z)) as [Hyz|Hyz|Hyz];
    try done; intros H1 H2.
  - rewrite Hxy, Hyz, N.compare_refl. by apply (IH b c).
  - rewrite Hxy. by rewrite (proj2 (N.compare_lt_iff _ _) Hyz).
  - rewrite <- Hyz. by rewrite (proj2 (N.compare_lt_iff _ _) Hxy).
  - by rewrite (proj2 (N.compare_lt_iff _ _) (N.lt_trans _ _ _ Hxy Hyz)).
Qed.

Lemma key_le_trans a b c : key_le a b -> key_le b c -> key_le a c.
Proof.
  unfold key_le. destruct a, b, c; cbn; try done.
  - apply string_leb_trans.
  - rewrite !Z.leb_le. lia.
Qed.

Lemma key_le_total a b : key_le a b ∨ key_le b a.
Proof.
  unfold key_le. destruct a, b; cbn; auto.
  - apply String.leb_total.
  - rewrite !Z.leb_le. lia.
Qed.

Lemma key_le_antisym a b : key_le a b -> key_le b a -> a = b.
Proof.
  unfold key_le. destruct a, b; cbn; try done.
  - intros H1 H2. f_equal. by apply String.leb_antisym.
  - rewrite !Z.leb_le. intros. f_equal. lia.
Qed.

Lemma item_le_trans : Transitive item_le.
Proof. intros x y z. apply key_le_trans. Qed.

Lemma insert_item_Permutation x l : insert_item x l ≡ₚ x :: l.
Proof.
  induction l as [|y l IH]; cbn; [done|].
  destruct (key_leb x.1 y.1); [done|].
  rewrite IH. apply Permutation_swap.
Qed.

Lemma sort_items_Permutation l : sort_items l ≡ₚ l.
Proof.
  induction l as [|x l IH]; cbn; [done|].
  by rewrite insert_item_Permutation, IH.
Qed.

Lemma insert_item_sorted x l :
  StronglySorted item_le l -> StronglySorted item_le (insert_item x l).
Proof.
  induction 1 as [|y l Hl IH Hy]; cbn.
  - repeat constructor.
  - destruct (key_leb x.1 y.1) eqn:Hxy.
    + constructor; [by constructor|].
      constructor; [done|].
      eapply Forall_impl; [exact Hy|]. intros z Hz. by eapply item_le_trans.
    + constructor; [done|].
      rewrite insert_item_Permutation. constructor; [|done].
      destruct (key_le_total x.1 y.1) as [Hle|Hle]; [|done].
      unfold key_le in Hle. congruence.
Qed.

Lemma sort_items_sorted l : StronglySorted item_le (sort_items l).
Proof.
  induction l as [|x l IH]; cbn; [constructor|]. by apply insert_item_sorted.
Qed.

Lemma NoDup_fst_functional {A B} (l : list (A * B)) k v1 v2 :
  NoDup l.*1 -> (k, v1) ∈ l -> (k, v2) ∈ l -> v1 = v2.
Proof.
  induction l as [|[a b] l IH]; cbn; intros Hnd H1 H2.
  - by apply elem_of_nil in H1.
  - apply NoDup_cons in Hnd as [Ha Hnd].
    apply elem_of_cons in H1 as [H1|H1]; apply elem_of_cons in H2 as [H2|H2].
    + congruence.
    + injection H1 as -> ->. exfalso. apply Ha.
      change a with (a, v2).1. by apply list_elem_of_fmap_2.
    + injection H2 as -> ->. exfalso. apply Ha.
      change a with (a, v1).1. by apply list_elem_of_fmap_2.
    + by apply IH.
Qed.

(** With distinct keys the sorted order forgets the order it started
    from. *)
Lemma sort_items_unique l1 l2 :
  NoDup l1.*1 -> l1 ≡ₚ l2 -> sort_items l1 = sort_items l2.
Proof.
  intros Hnd Hperm.
  apply (StronglySorted_unique_strong item_le);
    [|apply sort_items_sorted|apply sort_items_sorted|
     by rewrite !sort_items_Permutation].
  intros [k1 v1] [k2 v2] Hin1 Hin2 H12 H21.
  rewrite sort_items_Permutation in Hin1.
  rewrite sort_items_Permutation, <- Hperm in Hin2.
  assert (k1 = k2) as <- by (by apply key_le_antisym).
  f_equal. by eapply NoDup_fst_functional.
Qed.





End Sorting.

(** ** Structurally identical chains *)

Section Structural.
Context `{Runtime}.
Variable self : PickleCache.


Lemma level_within (level : nat) :
  (level ≤ max_recursion_level self)%nat ->
  (max_recursion_level self <? level)%nat = false.
Proof. intros. apply Nat.ltb_ge. lia. Qed.

Lemma comparable_vars attrs : comparable (vars_items attrs) = true.
Proof.
  unfold comparable, vars_items.
  replace (forallb _ _) with true; [done|].
  symmetry. induction attrs; cbn; auto.
Qed.



Lemma dump_rec_partial fuel func kws level :
  (level ≤ max_recursion_level self)%nat ->
  dump_rec self (S fuel) (PPartial func kws) level = Ok (DBytes (b_ "partial")).
Proof. intros Hlvl. cbn [dump_rec]. by rewrite level_within. Qed.

(** *** Lookups by name under reordering *)

Lemma assoc_Some (l : list (string * pyobj)) k v :
  NoDup l.*1 -> assoc k l = Some v ↔ (k, v) ∈ l.
Proof.
  induction l as [|[k0 v0] l IH]; cbn; intros Hnd.
  - split; [done|]. intros Hin. by apply elem_of_nil in Hin.
  - apply NoDup_cons in Hnd as [Hk0 Hnd]. rewrite elem_of_cons.
    destruct (decide (k0 = k)) as [->|Hne].
    + split.
      * intros [= ->]. by left.
      * intros [[= ->]|Hin]; [done|]. exfalso. apply Hk0.
        change k with (k, v).1. by apply list_elem_of_fmap_2.
    + rewrite IH by done. split; [by right|].
      intros [[= -> ->]|Hin]; done.
Qed.

Lemma assoc_Permutation (l l' : list (string * pyobj)) k :
  NoDup l.*1 -> l ≡ₚ l' -> assoc k l = assoc k l'.
Proof.
  intros Hnd Hperm.
  assert (Hnd' : NoDup l'.*1) by (by rewrite <- Hperm).
  destruct (assoc k l) as [v|] eqn:Hl.
  - symmetry. apply assoc_Some; [done|]. rewrite <- Hperm. by apply assoc_Some.
  - destruct (assoc k l') as [v'|] eqn:Hl'; [|done].
    apply assoc_Some in Hl'; [|done]. rewrite <- Hperm in Hl'.
    apply assoc_Some in Hl'; [|done]. congruence.
Qed.





Lemma vars_items_fst attrs : NoDup attrs.*1 -> NoDup (vars_items attrs).*1.
Proof.
  intros Hnd. unfold vars_items. rewrite <- list_fmap_compose.
  replace (fst ∘ _) with (KStr ∘ (fst : string * pyobj -> string)) by done.
  rewrite list_fmap_compose.
  assert (Inj eq eq KStr) by (by intros ?? [=]).
  by apply (NoDup_fmap_2 _).
Qed.

Lemma enumerate_rel (Q : pyobj -> pyobj -> Prop) xs ys :
  Forall2 Q xs ys ->
  Forall2 (entries_rel Q) (enumerate_items xs) (enumerate_items ys).
Proof.
  unfold enumerate_items. generalize str_of_nat as g.
  intros g Hrel. revert g.
  induction Hrel as [|x y xs ys HQ _ IH]; intros g; cbn; [constructor|].
  constructor; [done|]. apply (IH (g ∘ S)).
Qed.

(** *** The traversal of structurally identical objects *)










End Structural.

(** ** The engine on concrete inputs *)

Section Runs.
Import Sample.
#[local] Existing Instance Sample.runtime.

(** C1.  A pipeline that stops early, on a record that is not cached yet:
    [process] writes the entry with [stopped] true and returns normally, so
    that the early-termination signal does not reach the caller of the call
    that ran the pipeline.  The next call on the record hits the entry and
    raises the signal, without running the pipeline. *)
Theorem miss_path_does_not_resignal_early_termination :
  let '(w1, data1, r1) := first_stop in
  r1 = Ok tt ∧
  data1 = [(KStr "id", PInt 7); (KStr "x", PInt 1)] ∧
  subscript (entry_of w1 (file_of stopping record7)) "stopped" = Ok (PBool true) ∧
  trace w1 = [cache_log (file_of stopping record7);
              Log "debug" "Not found in cache, processing chain";
              Ran record7] ∧
  let '(w2, data2, r2) := process stopping record7 w1 in
  r2 = Raise StopIteration ∧
  data2 = record7 ∧
  trace w2 = trace w1 ++ [cache_log (file_of stopping record7);
                          Log "info" "Found in cache, skipping chain"].
Proof. vm_compute. repeat split. Qed.

(** C2.  A cache file truncated to zero bytes, the collector enabled:
    [process] recovers and returns, and leaves the collector disabled.
    [gc.disable()] ran before the read that failed, and [gc.enable()] is
    the statement after that read. *)
Theorem corrupted_entry_leaves_gc_disabled :
  gc_enabled truncated = true ∧
  content_of truncated (file_of completing record7) = [] ∧
  let '(w', data', r) := process completing record7 truncated in
  r = Ok tt ∧ gc_enabled w' = false.
Proof. vm_compute. repeat split. Qed.

(** C4.  With the default maximum depth of 10, a value at depth 11 is not
    entered, and yet its pickle is part of the hashed bytes: two chains that
    differ only in that value have different hashes.  The depth guard returns
    text, which cannot be added to the [bytes] accumulator; the handler of
    the resulting [TypeError] pickles the whole value. *)
Theorem value_beyond_max_depth_is_hashed :
  let self := fresh [] false 10 in
  _object_dump_to_string self (nest 11 (PList [PInt 5])) 0 =
    Ok (DBytes (b_ ("listS1:0listS1:0listS1:0listS1:0listS1:0listS1:0" +:+
                    "listS1:0listS1:0listS1:0listS1:0listS1:0") ++
                b_ "L1:I5;")) ∧
  pickle (PList [PInt 5]) = Ok (b_ "L1:I5;") ∧
  _get_chain_hash self (nest 11 (PList [PInt 5])) ≠
  _get_chain_hash self (nest 11 (PList [PInt 6])).
Proof. vm_compute. repeat split. intros [=]. Qed.

(** C5.  A chain of one unit that holds a lock.  [pickle] refuses the lock,
    and the unit that holds it, with [TypeError]; the handler around the
    dump of a member is for [PicklingError], so that the structural hash,
    and with it the fingerprint and [hash_chain], raise [TypeError] where
    the member was to be skipped. *)
Theorem fingerprint_raises_for_unit_holding_lock :
  let self := fresh [Locked] false 10 in
  pickle (POpaque "lock") = Raise TypeError ∧
  pickle Locked = Raise TypeError ∧
  _get_chain_hash self (PList [Locked]) = Raise TypeError ∧
  compute_chain_info self = Raise TypeError ∧
  hash_chain self = Raise TypeError.
Proof. vm_compute. repeat split. Qed.


(** *** The theorems at concrete inputs *)

(** The second call of C1's scenario, through C10. *)
Lemma process_hit_stopped_keeps_record_witness :
  let w := world_after first_stop in
  let '(w', data', r) := process stopping record7 w in
  r = Raise StopIteration ∧ data' = record7 ∧ fs w' = fs w ∧
  trace w' = trace w ++ [cache_log (file_of stopping record7);
                         Log "info" "Found in cache, skipping chain"].
Proof.
  apply (process_hit_stopped_keeps_record stopping record7
           (world_after first_stop) (file_of stopping record7)
           (content_of (world_after first_stop) (file_of stopping record7))
           (entry_of (world_after first_stop) (file_of stopping record7))
           (PDict [(KStr "id", PInt 7); (KStr "x", PInt 1)]) (PBool true));
    vm_compute; reflexivity.
Defined.



Lemma get_cache_file_is_directory_key_hash_witness :
  get_cache_file stopping record7 =
  Ok ("/cache" +:+ "/" +:+ Sha256.hexdigest (b_ "I7;") +:+
      "bd57481f3a844ac037cc106999c97864c2f9be7ac5fa375cff1afb36a99c9c97").
Proof.
  apply (get_cache_file_is_directory_key_hash stopping record7 (PInt 7));
    vm_compute; reflexivity.
Defined.

(** An attribute of a unit changed and the count did not: the fingerprint
    stays, though a fresh one would differ.  A unit was added to an engine
    around no unit: the four fields are those of the unit. *)
Lemma hash_chain_recomputes_iff_unit_count_differs_witness :
  let stale := set_modules completing changed_units in
  (hash_chain stale = Ok stale ∧
   chain_hash (the initial_chain_info (compute_chain_info stale))
     ≠ chain_hash (chain_info stale)) ∧
  ∃ self',
    hash_chain (fresh [Stop] false 10) = Ok self' ∧
    chain_len (chain_info self') = 1%nat ∧
    chain_mtime (chain_info self') = Some 1700000000 ∧
    chain_hash (chain_info self') =
      Some "3d14f1c861258c5ff0b3657150c7f9fcc996bd2db8fca76827feb9e924045cf6" ∧
    chain_repr (chain_info self') = Some "<class 'Stop'> <dict>" ∧
    directory self' = "/cache" ∧ force self' = false ∧
    data_key self' = KStr "id" ∧
    max_recursion_level self' = 10%nat ∧
    modules self' = [Stop].
Proof.
  split; [split|].
  - apply (proj1 (hash_chain_recomputes_iff_unit_count_differs
                    (set_modules completing changed_units))).
    vm_compute. reflexivity.
  - vm_compute. intros [=].
  - apply (proj1 (proj2 (hash_chain_recomputes_iff_unit_count_differs
                           (fresh [Stop] false 10)) ltac:(vm_compute; intros [=])));
      vm_compute; reflexivity.
Defined.


End Runs.

(** * Further properties of the engine *)

Section MoreEngineFacts.
Context `{Runtime}.
Variable self : PickleCache.

(** ** Errors that reach the caller *)

Lemma process_get_cache_file_raises data w e :
  get_cache_file self data = Raise e ->
  process self data w = (w, data, Raise e).
Proof.
  intros Hfile. unfold process, process_m. run. cbn [st_data]. rewrite Hfile.
  reflexivity.
Qed.

(** X1.  A record without the identity field: [process] raises [KeyError] and has
    touched nothing, neither the record nor the files, the log or the
    collector. *)
Theorem process_missing_identity_field data w :
  dict_get (data_key self) data = None ->
  process self data w = (w, data, Raise KeyError).
Proof.
  intros Hkey. apply process_get_cache_file_raises.
  unfold get_cache_file, getitem. by rewrite Hkey.
Qed.

(** X2.  An identity value the codec does not serialize: the codec's exception
    reaches the caller, and nothing was touched. *)
Theorem process_unpicklable_identity data w v e :
  dict_get (data_key self) data = Some v ->
  pickle v = Raise e ->
  process self data w = (w, data, Raise e).
Proof.
  intros Hkey Hp. apply process_get_cache_file_raises.
  unfold get_cache_file, getitem. rewrite Hkey. cbn [mbind result_bind].
  by rewrite Hp.
Qed.

(** An engine whose fingerprint was never computed has [None] for a chain
    hash, and the path cannot be built: [process] raises [TypeError] for
    every record, before it looks at the cache or runs the pipeline. *)
Lemma process_without_fingerprint data w v p :
  chain_hash (chain_info self) = None ->
  dict_get (data_key self) data = Some v ->
  pickle v = Ok p ->
  process self data w = (w, data, Raise TypeError).
Proof.
  intros Hh Hkey Hp. apply process_get_cache_file_raises.
  unfold get_cache_file, getitem. rewrite Hkey. cbn [mbind result_bind].
  rewrite Hp. cbn [mbind result_bind]. by rewrite Hh.
Qed.

Lemma run_and_store_pipeline_raises file st e :
  stop_flag (Chain_process (modules self) (st_data st)).2 = Raise e ->
  run_and_store self file st =
  ({| st_world :=
        add_events [Log "debug" "Not found in cache, processing chain";
                    Ran (st_data st)] (st_world st);
      st_data := (Chain_process (modules self) (st_data st)).1 |}, Raise e).
Proof.
  intros Hstop. unfold run_and_store. run.
  rewrite _process_run. cbv zeta. run. rewrite Hstop. cbn [mbind result_bind].
  unfold on_world, add_events; cbn. by rewrite <- app_assoc.
Qed.

Lemma run_and_store_dump_raises file st stop e :
  let data' := (Chain_process (modules self) (st_data st)).1 in
  stop_flag (Chain_process (modules self) (st_data st)).2 = Ok stop ->
  pickle_dump (make_entry data' stop (chain_info self)) = Raise e ->
  run_and_store self file st =
  ({| st_world :=
        with_fs (<[file := []]> (fs (st_world st)))
          (add_events [Log "debug" "Not found in cache, processing chain";
                       Ran (st_data st)] (st_world st));
      st_data := data' |}, Raise e).
Proof.
  intros data' Hstop Hdump. unfold run_and_store. run.
  rewrite _process_run. cbv zeta. run. rewrite Hstop. cbn [mbind result_bind]. run.
  rewrite opt_assoc_get_set. run. fold data'. rewrite Hdump.
  unfold on_world, with_fs, add_events; cbn. by rewrite <- app_assoc.
Qed.

(** X3.  The pipeline fails with something else than the early-termination
    signal, on a record that is not cached: the exception reaches the caller
    unchanged, the record is as the pipeline left it, and no file is
    written. *)
Theorem process_pipeline_error_propagates data w file e :
  get_cache_file self data = Ok file ->
  fs w !! file = None ->
  (Chain_process (modules self) data).2 = Some e ->
  e ≠ StopIteration ->
  let '(w', data', r) := process self data w in
  r = Raise e ∧
  data' = (Chain_process (modules self) data).1 ∧
  fs w' = fs w ∧
  trace w' = trace w ++ [cache_log file;
                         Log "debug" "Not found in cache, processing chain";
                         Ran data].
Proof.
  intros Hfile Hfs Hout Hne.
  rewrite (process_prefix _ _ _ file) by done. cbv zeta.
  rewrite Hfs, bool_decide_eq_false_2 by (by intros [? ?]).
  cbn [negb]. rewrite (run_and_store_pipeline_raises file _ e).
  - cbn. repeat split. by rewrite <- app_assoc.
  - cbn [st_data]. rewrite Hout. by destruct e.
Qed.

(** X4.  With [force], the entry on disk is not read: the pipeline is run again
    and the entry overwritten, whatever the file held.  The collector is
    left alone. *)
Theorem process_forced_reruns_and_overwrites data w file content stop content' :
  let data' := (Chain_process (modules self) data).1 in
  force self = true ->
  get_cache_file self data = Ok file ->
  fs w !! file = Some content ->
  stop_flag (Chain_process (modules self) data).2 = Ok stop ->
  pickle_dump (make_entry data' stop (chain_info self)) = Ok content' ->
  let '(w', data'', r) := process self data w in
  r = Ok tt ∧ data'' = data' ∧
  fs w' = <[file := content']> (fs w) ∧
  gc_enabled w' = gc_enabled w ∧
  trace w' = trace w ++ [cache_log file;
                         Log "info" "Item found in cache but force=True";
                         Log "debug" "Not found in cache, processing chain";
                         Ran data].
Proof.
  intros data' Hf Hfile Hfs Hstop Hdump.
  rewrite (process_forced_run _ data w file content stop content') by done.
  unfold stored_world.
  rewrite fs_chmod_world, trace_chmod_world, gc_chmod_world. cbn.
  repeat split. by rewrite <- !app_assoc.
Qed.

(** X5.  With [force] and a pipeline that fails, the entry that was on disk is
    still there, untouched. *)
Theorem process_forced_failure_keeps_entry data w file content e :
  force self = true ->
  get_cache_file self data = Ok file ->
  fs w !! file = Some content ->
  (Chain_process (modules self) data).2 = Some e ->
  e ≠ StopIteration ->
  let '(w', data', r) := process self data w in
  r = Raise e ∧ fs w' = fs w.
Proof.
  intros Hf Hfile Hfs Hout Hne.
  rewrite (process_prefix _ _ _ file) by done. cbv zeta.
  rewrite Hfs, bool_decide_eq_true_2, Hf by eauto.
  cbn [negb]. rewrite (run_and_store_pipeline_raises file _ e).
  - by cbn.
  - cbn [st_data on_world]. rewrite Hout. by destruct e.
Qed.

(** X6.  The entry cannot be serialized: the codec's exception reaches the
    caller after the pipeline has run and the file was opened for writing,
    so that a file is left at the path. *)
Theorem process_unpicklable_entry data w file stop e :
  let data' := (Chain_process (modules self) data).1 in
  get_cache_file self data = Ok file ->
  fs w !! file = None ->
  stop_flag (Chain_process (modules self) data).2 = Ok stop ->
  pickle_dump (make_entry data' stop (chain_info self)) = Raise e ->
  let '(w', data'', r) := process self data w in
  r = Raise e ∧ data'' = data' ∧ is_Some (fs w' !! file) ∧
  (∀ f, f ≠ file -> fs w' !! f = fs w !! f).
Proof.
  intros data' Hfile Hfs Hstop Hdump.
  rewrite (process_prefix _ _ _ file) by done. cbv zeta.
  rewrite Hfs, bool_decide_eq_false_2 by (by intros [? ?]).
  cbn [negb]. rewrite (run_and_store_dump_raises file _ stop e) by done.
  cbn. repeat split.
  - rewrite lookup_insert_eq. by eexists.
  - intros f Hne. by rewrite lookup_insert_ne.
Qed.

Lemma load_cached_raises file st content e :
  fs (st_world st) !! file = Some content ->
  pickle_load content = Raise e ->
  load_cached self file st =
  (on_world (fun w => with_gc false
                        (add_events [Log "info" "Found in cache, skipping chain"] w)) st,
   Raise e).
Proof.
  intros Hfs Hload. unfold load_cached. run.
  cbn [add_events fs]. rewrite Hfs. run. rewrite Hload. run. reflexivity.
Qed.

(** X7.  A cache file whose load fails with anything but the end-of-data error is
    not recovered: the exception reaches the caller, the file stays, the
    pipeline is not run, and the collector is left disabled. *)
Theorem process_load_error_propagates data w file content e :
  force self = false ->
  get_cache_file self data = Ok file ->
  fs w !! file = Some content ->
  pickle_load content = Raise e ->
  e ≠ EOFError ->
  let '(w', data', r) := process self data w in
  r = Raise e ∧ data' = data ∧ fs w' = fs w ∧ gc_enabled w' = false ∧
  trace w' = trace w ++ [cache_log file; Log "info" "Found in cache, skipping chain"].
Proof.
  intros Hf Hfile Hfs Hload Hne.
  rewrite (process_prefix _ _ _ file) by done. cbv zeta.
  rewrite Hfs, bool_decide_eq_true_2, Hf by eauto.
  rewrite try_catch_run.
  rewrite (load_cached_raises file _ content e) by done.
  rewrite decide_False by done. cbn. repeat split. by rewrite <- app_assoc.
Qed.

Lemma load_cached_time_raises file st content cache rd s m e :
  fs (st_world st) !! file = Some content ->
  pickle_load content = Ok cache ->
  subscript cache "data" = Ok rd ->
  subscript cache "stopped" = Ok s ->
  truthy s = false ->
  subscript cache "chain_mtime" = Ok m ->
  py_ne m (opt_float (chain_mtime (chain_info self))) = true ->
  ctime (opt_float (chain_mtime (chain_info self))) = Raise e ∨
    (ctime (opt_float (chain_mtime (chain_info self))) = Ok tt ∧ ctime m = Raise e) ->
  load_cached self file st = (on_world found_world st, Raise e).
Proof.
  intros Hfs Hload Hd Hs Ht Hm Hne Hc. unfold load_cached. run.
  cbn [add_events fs]. rewrite Hfs. run. rewrite Hload. run.
  rewrite Hd. run. rewrite Hs. run. rewrite Ht. run. rewrite Hm. run.
  rewrite (_check_time_consistency_raises _ _ e) by done. run. reflexivity.
Qed.

(** X24.  An entry whose modification time differs from the engine's and is
    one that [time.ctime] does not format (a number beyond the platform's
    range, say): the exception raised while the warning is put together
    reaches the caller.  Nothing of the entry is merged into the record, no
    warning is logged, the pipeline is not run and the file stays. *)
Theorem process_hit_unformattable_time_raises data w file content cache rd s m e :
  force self = false ->
  get_cache_file self data = Ok file ->
  fs w !! file = Some content ->
  pickle_load content = Ok cache ->
  subscript cache "data" = Ok rd ->
  subscript cache "stopped" = Ok s ->
  truthy s = false ->
  subscript cache "chain_mtime" = Ok m ->
  py_ne m (opt_float (chain_mtime (chain_info self))) = true ->
  ctime (opt_float (chain_mtime (chain_info self))) = Raise e ∨
    (ctime (opt_float (chain_mtime (chain_info self))) = Ok tt ∧ ctime m = Raise e) ->
  e ≠ EOFError ->
  let '(w', data', r) := process self data w in
  r = Raise e ∧ data' = data ∧ fs w' = fs w ∧ gc_enabled w' = true ∧
  trace w' = trace w ++ [cache_log file; Log "info" "Found in cache, skipping chain"].
Proof.
  intros Hf Hfile Hfs Hload Hd Hs Ht Hm Hpy Hc Hne.
  rewrite (process_prefix _ _ _ file) by done. cbv zeta.
  rewrite Hfs, bool_decide_eq_true_2, Hf by eauto.
  rewrite try_catch_run.
  rewrite (load_cached_time_raises file _ content cache rd s m e) by done.
  rewrite decide_False by done. cbn. repeat split. by rewrite <- app_assoc.
Qed.

(** ** Two calls in a row *)

Lemma py_ne_opt_float m : py_ne (opt_float m) (opt_float m) = false.
Proof. destruct m; cbn; [|done]. by rewrite Z.eqb_refl. Qed.

Lemma fs_stored_world file content ran w :
  fs (stored_world file content ran w) = <[file := content]> (fs w).
Proof. unfold stored_world. by rewrite fs_chmod_world. Qed.

(** X8.  A run that completed is replayed.  After [process] ran the pipeline on a
    record and stored the entry, a call on a record with the same identity
    (the codec reading back what it wrote) returns without running the
    pipeline, having set in its record every field of the record the
    pipeline left; no warning is logged, and no file changes. *)
Theorem process_replays_completed_run data data2 w file content' :
  let data' := (Chain_process (modules self) data).1 in
  let entry := make_entry data' false (chain_info self) in
  force self = false ->
  get_cache_file self data = Ok file ->
  get_cache_file self data2 = Ok file ->
  fs w !! file = None ->
  (Chain_process (modules self) data).2 = None ->
  pickle_dump entry = Ok content' ->
  pickle_load content' = Ok entry ->
  let '(w1, _, r1) := process self data w in
  let '(w2, d2, r2) := process self data2 w1 in
  r1 = Ok tt ∧ r2 = Ok tt ∧
  d2 = merge_dict data' data2 ∧
  (NoDup data'.*1 -> ∀ k v, dict_get k data' = Some v -> dict_get k d2 = Some v) ∧
  fs w2 = fs w1 ∧
  trace w2 = trace w1 ++ [cache_log file; Log "info" "Found in cache, skipping chain"].
Proof.
  intros data' entry Hf Hfile Hfile2 Hfs Hout Hdump Hload.
  rewrite (process_miss_run _ data w file false content');
    [|done|done|by rewrite Hout|done].
  rewrite (process_hit_merge_run _ data2 _ file content' entry data' (PBool false)
             (opt_float (chain_mtime (chain_info self))));
    [|done|done|by rewrite fs_stored_world, lookup_insert_eq|done|done|done|done|done
     |by rewrite py_ne_opt_float].
  unfold warn_world. rewrite py_ne_opt_float.
  split; [done|]. split; [done|]. split; [done|]. split.
  - intros Hnd k v Hk. rewrite dict_get_merge by done. by rewrite Hk.
  - split; [done|]. cbn. by rewrite <- !app_assoc.
Qed.

(** X9.  A run that stopped early is replayed.  After [process] ran a pipeline
    that stopped early and stored the entry, a call on a record with the same
    identity raises the early-termination signal, without running the
    pipeline and without touching its record. *)
Theorem process_replays_stopped_run data data2 w file content' :
  let data' := (Chain_process (modules self) data).1 in
  let entry := make_entry data' true (chain_info self) in
  force self = false ->
  get_cache_file self data = Ok file ->
  get_cache_file self data2 = Ok file ->
  fs w !! file = None ->
  (Chain_process (modules self) data).2 = Some StopIteration ->
  pickle_dump entry = Ok content' ->
  pickle_load content' = Ok entry ->
  let '(w1, _, _) := process self data w in
  let '(w2, d2, r2) := process self data2 w1 in
  r2 = Raise StopIteration ∧ d2 = data2 ∧ fs w2 = fs w1 ∧
  trace w2 = trace w1 ++ [cache_log file; Log "info" "Found in cache, skipping chain"].
Proof.
  intros data' entry Hf Hfile Hfile2 Hfs Hout Hdump Hload.
  rewrite (process_miss_run _ data w file true content');
    [|done|done|by rewrite Hout|done].
  rewrite (process_hit_stopped_run _ data2 _ file content' entry (PDict data')
             (PBool true));
    [|done|done|by rewrite fs_stored_world, lookup_insert_eq|done|done|done|done].
  repeat split. cbn. by rewrite <- !app_assoc.
Qed.

(** ** Permissions *)

(** X10.  After a miss the file of the entry is given read and write rights for
    user, group and others (mode 0o666); when [os.chmod] is refused the call
    still returns, with the entry written. *)
Theorem process_sets_rights_or_ignores_refusal data w file stop content' :
  let data' := (Chain_process (modules self) data).1 in
  get_cache_file self data = Ok file ->
  fs w !! file = None ->
  stop_flag (Chain_process (modules self) data).2 = Ok stop ->
  pickle_dump (make_entry data' stop (chain_info self)) = Ok content' ->
  let '(w', _, r) := process self data w in
  r = Ok tt ∧ fs w' !! file = Some content' ∧
  (file ∉ chmod_refused w -> modes w' !! file = Some 438) ∧
  (file ∈ chmod_refused w -> modes w' = modes w).
Proof.
  intros data' Hfile Hfs Hstop Hdump.
  rewrite (process_miss_run _ data w file stop content') by done.
  split; [done|]. split; [by rewrite fs_stored_world, lookup_insert_eq|].
  unfold stored_world, chmod_world. cbn [chmod_refused with_fs add_events].
  split; intros Hin.
  - rewrite bool_decide_eq_false_2 by done. cbn. apply lookup_insert_eq.
  - by rewrite bool_decide_eq_true_2.
Qed.

End MoreEngineFacts.

(** * Further properties of the fingerprint and of the cache path *)

(** ** The digest has 64 hexadecimal digits *)

Section DigestLength.

Lemma length_be_bytes n x : length (Sha256.be_bytes n x) = n.
Proof. unfold Sha256.be_bytes. by rewrite length_map, length_rev, length_seq. Qed.

Lemma length_round st kw : length st = 8%nat -> length (Sha256.round st kw) = 8%nat.
Proof.
  intros Hlen.
  do 9 (destruct st as [|? st]; try done).
Qed.

Lemma length_rounds l st :
  length st = 8%nat -> length (foldl Sha256.round st l) = 8%nat.
Proof.
  revert st. induction l as [|kw l IH]; intros st Hlen; cbn; [done|].
  apply IH. by apply length_round.
Qed.

Lemma length_compress h block :
  length h = 8%nat -> length (Sha256.compress h block) = 8%nat.
Proof.
  intros Hlen. unfold Sha256.compress.
  rewrite length_zip_with, length_rounds by done. lia.
Qed.

Lemma length_blocks fuel ws h :
  length h = 8%nat -> length (Sha256.blocks fuel ws h) = 8%nat.
Proof.
  revert ws h. induction fuel as [|fuel IH]; intros ws h Hlen; cbn; [done|].
  destruct ws; [done|]. apply IH. by apply length_compress.
Qed.

Lemma length_flat_be_bytes l :
  length (flat_map (Sha256.be_bytes 4) l) = (4 * length l)%nat.
Proof.
  induction l as [|x l IH]; cbn [flat_map]; [done|].
  rewrite length_app, length_be_bytes, IH. cbn [length]. lia.
Qed.

Lemma length_hex bs : String.length (Sha256.hex bs) = (2 * length bs)%nat.
Proof. induction bs as [|b bs IH]; cbn; [done|]. rewrite IH. lia. Qed.

Lemma length_hexdigest msg : String.length (Sha256.hexdigest msg) = 64%nat.
Proof.
  unfold Sha256.hexdigest, Sha256.digest.
  rewrite length_hex, length_flat_be_bytes, length_blocks; done.
Qed.

Lemma append_inj_length s1 s2 t1 t2 :
  String.length s1 = String.length s2 ->
  s1 +:+ t1 = s2 +:+ t2 -> s1 = s2 ∧ t1 = t2.
Proof.
  revert s2. induction s1 as [|c s1 IH]; intros [|c2 s2] Hlen Happ; try done.
  cbn in Hlen, Happ. injection Happ as -> Happ.
  destruct (IH s2) as [-> ->]; [lia|done|done].
Qed.

Lemma append_inj_l s t1 t2 : s +:+ t1 = s +:+ t2 -> t1 = t2.
Proof. intros Happ. by destruct (append_inj_length s s t1 t2). Qed.

End DigestLength.

Section MoreFingerprintFacts.
Context `{Runtime}.

(** ** The cache path *)

Lemma get_cache_file_ok self data v p h :
  dict_get (data_key self) data = Some v ->
  pickle v = Ok p ->
  chain_hash (chain_info self) = Some h ->
  get_cache_file self data = Ok (directory self +:+ "/" +:+ Sha256.hexdigest p +:+ h).
Proof.
  intros Hv Hp Hh. unfold get_cache_file, getitem.
  rewrite Hv. cbn [mbind result_bind]. rewrite Hp. cbn [mbind result_bind].
  by rewrite Hh.
Qed.

(** X12.  Two engines on one directory, two records: the cache paths are the same
    exactly when the digests of the serialized identity values are the same
    and the chain hashes are the same.  So records with one identity share
    their file under one chain, and chains with different hashes never share
    a file. *)
Theorem cache_files_equal_iff self1 self2 data1 data2 v1 v2 p1 p2 h1 h2 :
  directory self1 = directory self2 ->
  dict_get (data_key self1) data1 = Some v1 -> pickle v1 = Ok p1 ->
  chain_hash (chain_info self1) = Some h1 ->
  dict_get (data_key self2) data2 = Some v2 -> pickle v2 = Ok p2 ->
  chain_hash (chain_info self2) = Some h2 ->
  get_cache_file self1 data1 = get_cache_file self2 data2 ↔
  Sha256.hexdigest p1 = Sha256.hexdigest p2 ∧ h1 = h2.
Proof.
  intros Hdir Hv1 Hp1 Hh1 Hv2 Hp2 Hh2.
  rewrite (get_cache_file_ok self1 data1 v1 p1 h1) by done.
  rewrite (get_cache_file_ok self2 data2 v2 p2 h2) by done.
  rewrite Hdir. split.
  - intros [= Heq]. apply append_inj_l, append_inj_l in Heq.
    apply append_inj_length in Heq; [done|]. by rewrite !length_hexdigest.
  - by intros [-> ->].
Qed.

(** ** [hash_chain] *)

Lemma hash_chain_ok_inv self self' :
  hash_chain self = Ok self' ->
  (length (modules self) ≠ chain_len (chain_info self) ->
   compute_chain_info self = Ok (chain_info self')) ∧
  chain_len (chain_info self') = length (modules self') ∧
  set_chain_info self (chain_info self') = self' ∧
  hash_chain self' = Ok self'.
Proof.
  unfold hash_chain. intros Hhc.
  destruct (decide (length (modules self) ≠ chain_len (chain_info self))) as [Hne|Heq].
  - destruct (compute_chain_info self) as [ci|] eqn:Hci; [|done].
    cbn in Hhc. injection Hhc as <-. cbn.
    assert (Hlen : chain_len ci = length (modules self)).
    { unfold compute_chain_info in Hci.
      destruct (_get_chain_mtime _); [|done]. cbn [mbind result_bind] in Hci.
      destruct (_get_chain_hash _ _); [|done]. cbn [mbind result_bind] in Hci.
      destruct (_get_chain_repr _); [|done]. cbn [mbind result_bind] in Hci.
      by injection Hci as <-. }
    repeat split; [done|].
    by rewrite decide_False by (rewrite Hlen; by intros ?).
  - injection Hhc as <-. apply dec_stable in Heq.
    split; [done|]. split; [done|]. split; [by destruct self|].
    by rewrite decide_False by (by intros ?).
Qed.

(** X13.  After [hash_chain] the recorded length is the number of units, unless
    nothing was computed; it changes [chain_info] only, and a second
    [hash_chain] changes nothing. *)
Theorem hash_chain_settles self self' :
  hash_chain self = Ok self' ->
  (length (modules self) ≠ chain_len (chain_info self) ->
   compute_chain_info self = Ok (chain_info self')) ∧
  chain_len (chain_info self') = length (modules self') ∧
  set_chain_info self (chain_info self') = self' ∧
  hash_chain self' = Ok self'.
Proof. apply hash_chain_ok_inv. Qed.

(** An engine around no unit never gets a fingerprint: the count of units
    is the 0 that [__init__] recorded, so that [hash_chain] computes nothing
    and the chain hash stays [None]. *)
Lemma hash_chain_of_empty_chain self :
  modules self = [] ->
  chain_info self = initial_chain_info ->
  hash_chain self = Ok self ∧ chain_hash (chain_info self) = None.
Proof.
  intros Hm Hci. unfold hash_chain. rewrite Hm, Hci. cbn.
  by rewrite decide_False by (by intros ?).
Qed.

(** ** What the structural hash does not see *)

Lemma dump_items_pointwise rec items1 items2 acc :
  Forall2 (entries_rel (fun a b => ∀ acc, dump_part rec acc a = dump_part rec acc b))
    items1 items2 ->
  dump_items rec items1 acc = dump_items rec items2 acc.
Proof.
  intros Hrel. revert acc.
  induction Hrel as [|[k1 v1] [k2 v2] l1 l2 [Hk Hv] _ IH]; intros acc; [done|].
  cbn in Hk, Hv. subst k2. cbn [dump_items].
  destruct (dump_part rec acc (key_obj k1)) as [acc1|]; cbn [mbind result_bind]; [|done].
  rewrite Hv.
  destruct (dump_part rec acc1 v2) as [acc2|]; cbn [mbind result_bind]; [|done].
  apply IH.
Qed.

(** X16.  A partial application is hashed by its class name alone: the function
    it wraps and the arguments it binds are not attributes, so that two chains
    that differ only in them have the same structural hash. *)
Theorem structural_hash_blind_to_partial self ms1 ms2 :
  (1 ≤ max_recursion_level self)%nat ->
  Forall2 same_up_to_partial ms1 ms2 ->
  _get_chain_hash self (PList ms1) = _get_chain_hash self (PList ms2).
Proof.
  intros Hmax Hrel. unfold _get_chain_hash, _object_dump_to_string.
  rewrite !dump_rec_list by lia. rewrite Nat.sub_0_r.
  rewrite (dump_items_pointwise _ (enumerate_items ms1) (enumerate_items ms2)); [done|].
  apply enumerate_rel. eapply Forall2_impl; [exact Hrel|].
  intros a b [->|[Ha Hb]] acc; [done|].
  destruct a; try done. destruct b; try done.
  unfold dump_part. by rewrite !dump_rec_partial.
Qed.

Lemma comparable_keys (kvs1 kvs2 : pydict) :
  kvs1.*1 = kvs2.*1 -> comparable kvs1 = comparable kvs2.
Proof.
  intros Hk. unfold comparable.
  assert (Hall : ∀ f : pykey -> bool,
    forallb (fun kv : pykey * pyobj => f kv.1) kvs1 =
    forallb (fun kv : pykey * pyobj => f kv.1) kvs2).
  { intros f. revert kvs2 Hk.
    induction kvs1 as [|a l IH]; intros [|b l2] Hk; try done.
    cbn in Hk. injection Hk as Hab Hl. cbn. by rewrite Hab, (IH l2). }
  by rewrite (Hall is_kstr), (Hall (fun k => negb (is_kstr k))).
Qed.

(** X17.  A dict whose keys are of mixed types cannot be sorted, and is then
    enumerated: what is hashed are positions and keys, in internal order, and
    the values of the dict are not looked at. *)
Theorem mixed_key_dict_values_not_hashed self kvs1 kvs2 level :
  comparable kvs1 = false ->
  kvs1.*1 = kvs2.*1 ->
  _object_dump_to_string self (PDict kvs1) level =
  _object_dump_to_string self (PDict kvs2) level.
Proof.
  intros Hcmp Hkeys. unfold _object_dump_to_string.
  assert (Hitems : object_items (PDict kvs1) = object_items (PDict kvs2)).
  { unfold object_items. cbn [py_vars py_items mbind result_bind try_except].
    unfold sorted. rewrite <- (comparable_keys kvs1 kvs2), Hcmp by done.
    cbn [try_except py_iter mbind result_bind].
    replace (map (fun kv : pykey * pyobj => key_obj kv.1) kvs1)
      with (map key_obj kvs1.*1) by (by rewrite <- list_fmap_compose).
    replace (map (fun kv : pykey * pyobj => key_obj kv.1) kvs2)
      with (map key_obj kvs2.*1) by (by rewrite <- list_fmap_compose).
    by rewrite Hkeys. }
  cbn [dump_rec]. destruct (_ <? _)%nat; [done|].
  cbn [class_name py_name]. by rewrite Hitems.
Qed.

(** ** The newest modification time *)

Lemma mtime_loop_flat rec ms acc :
  Forall (fun m => is_iterable m = false) ms ->
  mtime_loop rec ms acc =
  Ok (acc ++ map _get_object_mtime (List.filter has_process ms)).
Proof.
  intros Hflat. revert acc.
  induction Hflat as [|m ms Hm _ IH]; intros acc; cbn [mtime_loop List.filter map].
  - by rewrite app_nil_r.
  - rewrite Hm. destruct (has_process m); [|done].
    rewrite IH. cbn [map]. by rewrite <- app_assoc.
Qed.

(** X18.  For a chain of units and callables without sub-chains, the newest
    modification time is the largest source-file time among the units that
    have [process], and 0 when there is none: callables do not count. *)
Theorem chain_mtime_of_flat_chain ms :
  (0 < recursion_limit)%nat ->
  Forall (fun m => is_iterable m = false) ms ->
  _get_chain_mtime (PList ms) =
  Ok (max_list (0 :: map _get_object_mtime (List.filter has_process ms))).
Proof.
  intros Hlim Hflat. unfold _get_chain_mtime.
  destruct recursion_limit as [|fuel]; [lia|].
  cbn [chain_mtime_rec py_iter mbind result_bind].
  by rewrite mtime_loop_flat.
Qed.

Lemma chain_mtime_rec_text fuel c s :
  chain_mtime_rec fuel (PStr (String c s)) = Raise RecursionError.
Proof.
  revert c s. induction fuel as [|fuel IH]; intros c s; [done|].
  cbn [chain_mtime_rec py_iter mbind result_bind]. unfold chars.
  cbn [list_ascii_of_string map mtime_loop is_iterable].
  by rewrite IH.
Qed.

(** X19.  Text is iterable and every character of it is text again: a chain
    with a text member that is not empty (after members that are not
    iterable) sends [_get_chain_mtime] down until the interpreter's
    recursion limit, and the call raises [RecursionError]. *)
Theorem chain_mtime_of_text_member pre c s post :
  Forall (fun m => is_iterable m = false) pre ->
  _get_chain_mtime (PList (pre ++ PStr (String c s) :: post)) = Raise RecursionError.
Proof.
  intros Hflat. unfold _get_chain_mtime.
  destruct recursion_limit as [|fuel]; [done|].
  cbn [chain_mtime_rec py_iter mbind result_bind].
  generalize [0]. induction Hflat as [|m pre Hm _ IH]; intros acc.
  - cbn [app mtime_loop is_iterable]. by rewrite chain_mtime_rec_text.
  - cbn [app mtime_loop]. rewrite Hm. destruct (has_process m); apply IH.
Qed.


End MoreFingerprintFacts.

(** * Construction *)

Section ConstructionFacts.
Context `{Runtime}.
Variable Chain_modules : option pyobj -> list pyobj.
Variable makedirs : makedirs_t.

Lemma umask_create_directory directory dir_rights o :
  umask (create_directory makedirs directory dir_rights o).1 = umask o.
Proof.
  unfold create_directory, os_umask, os_makedirs. cbn.
  by destruct (makedirs _ _ _ _).
Qed.

(** While [os.makedirs] runs the mask is 0, whatever it was. *)
Lemma dirs_create_directory directory dir_rights o :
  dirs (create_directory makedirs directory dir_rights o).1 =
    (makedirs directory dir_rights 0 (dirs o)).1 ∧
  (create_directory makedirs directory dir_rights o).2 =
    (makedirs directory dir_rights 0 (dirs o)).2.
Proof.
  unfold create_directory, os_umask, os_makedirs. cbn.
  by destruct (makedirs _ _ _ _).
Qed.

(** X20.  [__init__] leaves the file mode creation mask of the process as it found
    it, whether the engine is built, [hash_chain] raises or [os.makedirs]
    does. *)
Theorem init_restores_umask directory data_key chain force max_recursion_level
    dir_rights o :
  umask (PickleCache_init Chain_modules makedirs directory data_key chain force
           max_recursion_level dir_rights o).1 = umask o.
Proof.
  unfold PickleCache_init.
  destruct (match chain with Some _ => _ | None => _ end); [|done].
  destruct (dir_exists directory o); [done|].
  pose proof (umask_create_directory directory dir_rights o) as Hu.
  by destruct (create_directory makedirs directory dir_rights o) as [o' [|]].
Qed.

(** X21.  A directory that [__init__] makes has exactly the permission bits
    asked for, whatever the mask of the process is: the mask is cleared
    around [os.makedirs], and [os.makedirs] gives the directory the bits of
    the mode that the mask in force leaves. *)
Theorem init_creates_directory_with_rights directory data_key chain force
    max_recursion_level dir_rights o o' self :
  makedirs_sets_rights makedirs ->
  Z.land dir_rights 511 = dir_rights ->
  dirs o !! directory = None ->
  PickleCache_init Chain_modules makedirs directory data_key chain force
    max_recursion_level dir_rights o = (o', Ok self) ->
  dirs o' !! directory = Some dir_rights.
Proof.
  intros Hmk Hbits Hdir. unfold PickleCache_init.
  destruct (match chain with Some _ => _ | None => _ end); [|done].
  unfold dir_exists. rewrite Hdir, bool_decide_eq_false_2 by (by intros [? ?]).
  destruct (dirs_create_directory directory dir_rights o) as [Hds Hr].
  destruct (create_directory makedirs directory dir_rights o) as [o2 [[]|]];
    [|done].
  intros [= <- _]. cbn in Hds, Hr. rewrite Hds.
  rewrite (Hmk directory dir_rights 0 (dirs o)
             (makedirs directory dir_rights 0 (dirs o)).1); [|done|].
  - f_equal. apply Z.land_m1_r.
  - destruct (makedirs _ _ _ _) as [ds r]. cbn in *. by rewrite Hr.
Qed.

(** A directory that exists is taken as it is: [__init__] changes nothing
    outside the engine. *)
Lemma init_keeps_existing_directory directory data_key chain force
    max_recursion_level dir_rights o rights :
  dirs o !! directory = Some rights ->
  (PickleCache_init Chain_modules makedirs directory data_key chain force
     max_recursion_level dir_rights o).1 = o.
Proof.
  intros Hdir. unfold PickleCache_init.
  destruct (match chain with Some _ => _ | None => _ end); [|done].
  unfold dir_exists. by rewrite Hdir, bool_decide_eq_true_2 by eauto.
Qed.

Lemma init_engine dir key chain frc depth dir_rights o o' self :
  PickleCache_init Chain_modules makedirs dir key chain frc depth dir_rights o = (o', Ok self) ->
  match chain with
  | Some _ => hash_chain (unhashed dir key (Chain_modules chain) frc depth) = Ok self
  | None => self = unhashed dir key (Chain_modules chain) frc depth
  end.
Proof.
  unfold PickleCache_init. intros Hinit. cbv zeta in Hinit.
  destruct chain as [c|].
  - destruct (hash_chain _) as [s|]; [|done].
    destruct (dir_exists dir o); [by injection Hinit as _ ->|].
    destruct (create_directory _ _ _) as [o2 [|]]; [|done].
    by injection Hinit as _ ->.
  - destruct (dir_exists dir o); [by injection Hinit as _ <-|].
    destruct (create_directory _ _ _) as [o2 [|]]; [|done].
    by injection Hinit as _ <-.
Qed.

(** X22.  An engine built around a chain with at least one unit has its
    fingerprint: the number of units and a chain hash, so that the cache path
    of every record with a serializable identity is defined. *)
Theorem init_with_units_has_fingerprint dir key c frc depth dir_rights
    o o' self data v p :
  PickleCache_init Chain_modules makedirs dir key (Some c) frc depth dir_rights o
    = (o', Ok self) ->
  Chain_modules (Some c) ≠ [] ->
  dict_get key data = Some v ->
  pickle v = Ok p ->
  chain_len (chain_info self) = length (Chain_modules (Some c)) ∧
  ∃ h, chain_hash (chain_info self) = Some h ∧
       get_cache_file self data = Ok (dir +:+ "/" +:+ Sha256.hexdigest p +:+ h).
Proof.
  intros Hinit Hne Hv Hp. apply init_engine in Hinit.
  pose proof (hash_chain_ok_inv _ _ Hinit) as (Hci & Hlen & Hself & _).
  assert (Hfields : modules self = Chain_modules (Some c) ∧
                    directory self = dir ∧ data_key self = key)
    by (by rewrite <- Hself).
  destruct Hfields as (Hm & Hdir & Hkey).
  split; [by rewrite Hlen, Hm|].
  assert (Hci' : compute_chain_info
                   (unhashed dir key (Chain_modules (Some c)) frc depth)
                 = Ok (chain_info self)).
  { apply Hci. cbn. by destruct (Chain_modules (Some c)). }
  unfold compute_chain_info in Hci'.
  destruct (_get_chain_mtime _); [|done]. cbn [mbind result_bind] in Hci'.
  destruct (_get_chain_hash _ _) as [h|]; [|done]. cbn [mbind result_bind] in Hci'.
  destruct (_get_chain_repr _); [|done]. cbn [mbind result_bind] in Hci'.
  exists h. injection Hci' as Hci'.
  assert (Hh : chain_hash (chain_info self) = Some h) by (by rewrite <- Hci').
  split; [done|].
  rewrite <- Hdir.
  apply (get_cache_file_ok self data v p h); [|done|done].
  by rewrite Hkey.
Qed.

(** X23.  An engine built without a chain, or around a chain without units, has
    no chain hash, and every [process] on it raises [TypeError] before the
    cache is looked at or the pipeline run. *)
Theorem init_without_units_cannot_process dir key chain frc depth dir_rights
    o o' self data w v p :
  PickleCache_init Chain_modules makedirs dir key chain frc depth dir_rights o
    = (o', Ok self) ->
  Chain_modules chain = [] ->
  dict_get key data = Some v ->
  pickle v = Ok p ->
  chain_hash (chain_info self) = None ∧
  process self data w = (w, data, Raise TypeError).
Proof.
  intros Hinit Hm Hv Hp. apply init_engine in Hinit.
  assert (Hself : self = unhashed dir key (Chain_modules chain) frc depth).
  { destruct chain; [|done].
    rewrite (proj1 (hash_chain_of_empty_chain
                      (unhashed dir key (Chain_modules (Some p0)) frc depth)
                      Hm eq_refl)) in Hinit.
    by injection Hinit as <-. }
  subst self. split; [done|].
  by apply (process_without_fingerprint _ data w v p).
Qed.

End ConstructionFacts.

(** * What [process] leaves alone *)

Section Frame.
Context `{Runtime}.
Variable self : PickleCache.
Variable file : string.

Lemma same_files_refl st : same_files_but file st st.
Proof. by intros f Hf. Qed.

Lemma same_files_trans st1 st2 st3 :
  same_files_but file st1 st2 -> same_files_but file st2 st3 ->
  same_files_but file st1 st3.
Proof. intros H12 H23 f Hf. by rewrite H23, H12. Qed.

Lemma keeps_bind {A B} (m : M A) (k : A -> M B) :
  keeps (same_files_but file) m ->
  (∀ a, keeps (same_files_but file) (k a)) ->
  keeps (same_files_but file) (m ≫= k).
Proof.
  intros Hm Hk st. rewrite bind_run. specialize (Hm st).
  destruct (m st) as [st' [a|e]]; [|done].
  eapply same_files_trans; [exact Hm|apply Hk].
Qed.

Lemma keeps_try_catch {A} e (m h : M A) :
  keeps (same_files_but file) m ->
  keeps (same_files_but file) h ->
  keeps (same_files_but file) (try_catch e m h).
Proof.
  intros Hm Hh st. rewrite try_catch_run. specialize (Hm st).
  destruct (m st) as [st' [a|e']]; [done|].
  destruct (decide (e' = e)); [|done].
  eapply same_files_trans; [exact Hm|apply Hh].
Qed.

Lemma keeps_same_fs {A} (m : M A) :
  (∀ st, fs (st_world (m st).1) = fs (st_world st)) ->
  keeps (same_files_but file) m.
Proof. intros Hm st f Hf. by rewrite Hm. Qed.

Lemma keeps_ret {A} (a : A) : keeps (same_files_but file) (mret a).
Proof. by apply keeps_same_fs. Qed.

Lemma keeps_lift {A} (r : result A) : keeps (same_files_but file) (lift r).
Proof. by apply keeps_same_fs. Qed.

Lemma keeps_raise {A} e : keeps (same_files_but file) (@raise A e).
Proof. by apply keeps_same_fs. Qed.

Lemma keeps_log level msg : keeps (same_files_but file) (log level msg).
Proof. by apply keeps_same_fs. Qed.

Lemma keeps_get_data : keeps (same_files_but file) get_data.
Proof. by apply keeps_same_fs. Qed.

Lemma keeps_set_data d : keeps (same_files_but file) (set_data d).
Proof. by apply keeps_same_fs. Qed.

Lemma keeps_gc_disable : keeps (same_files_but file) gc_disable.
Proof. by apply keeps_same_fs. Qed.

Lemma keeps_gc_enable : keeps (same_files_but file) gc_enable.
Proof. by apply keeps_same_fs. Qed.

Lemma keeps_read_file f : keeps (same_files_but file) (read_file f).
Proof. apply keeps_same_fs. intros st. by rewrite read_file_run. Qed.

Lemma keeps_path_exists f : keeps (same_files_but file) (path_exists f).
Proof. by apply keeps_same_fs. Qed.

Lemma keeps_os_chmod f mode : keeps (same_files_but file) (os_chmod f mode).
Proof.
  apply keeps_same_fs. intros st. unfold os_chmod.
  rewrite bind_run, get_world_run. by destruct (bool_decide _).
Qed.

Lemma keeps_super_process : keeps (same_files_but file) (super_process self).
Proof. apply keeps_same_fs. intros st. by rewrite super_process_run. Qed.

Lemma keeps_open_wb : keeps (same_files_but file) (open_wb file).
Proof. intros st f Hf. rewrite open_wb_run. cbn. by rewrite lookup_insert_ne. Qed.

Lemma keeps_write_file content : keeps (same_files_but file) (write_file file content).
Proof. intros st f Hf. rewrite write_file_run. cbn. by rewrite lookup_insert_ne. Qed.

Lemma keeps_os_unlink : keeps (same_files_but file) (os_unlink file).
Proof.
  intros st f Hf. destruct (fs (st_world st) !! file) as [content|] eqn:Hfs.
  - rewrite (os_unlink_run file content) by done. cbn. by rewrite lookup_delete_ne.
  - unfold os_unlink. by rewrite bind_run, get_world_run, Hfs.
Qed.

Lemma keeps_merge_items items : keeps (same_files_but file) (merge_items items).
Proof. apply keeps_same_fs. intros st. by rewrite merge_items_run. Qed.

Create HintDb keeps discriminated.
#[local] Hint Resolve keeps_ret keeps_lift keeps_raise keeps_log keeps_get_data
  keeps_set_data keeps_gc_disable keeps_gc_enable keeps_read_file keeps_path_exists
  keeps_os_chmod keeps_super_process keeps_open_wb keeps_write_file keeps_os_unlink
  keeps_merge_items : keeps.

Ltac keeps_steps :=
  repeat match goal with
         | |- keeps _ (mbind _ _) => simple apply keeps_bind; [|intros ?]
         | |- keeps _ (try_catch _ _ _) => simple apply keeps_try_catch
         | |- keeps _ _ => solve [auto with keeps]
         end.

Lemma keeps_load_cached : keeps (same_files_but file) (load_cached self file).
Proof.
  unfold load_cached. keeps_steps.
  destruct (truthy _); keeps_steps.
  unfold _check_time_consistency. destruct (py_ne _ _); keeps_steps.
Qed.

Lemma keeps_drop_corrupted : keeps (same_files_but file) (drop_corrupted file).
Proof. unfold drop_corrupted. keeps_steps. Qed.

Lemma keeps_run_and_store : keeps (same_files_but file) (run_and_store self file).
Proof.
  unfold run_and_store. apply keeps_bind; [auto with keeps|intros _].
  apply keeps_bind.
  - unfold _process. keeps_steps.
  - intros [cache stop]. keeps_steps.
Qed.

(** X11.  Whatever the codec, the pipeline and the files do, and however the call
    ends, [process] leaves every file but the cache file of its record as it
    was. *)
Theorem process_touches_only_its_file data w :
  get_cache_file self data = Ok file ->
  ∀ f, f ≠ file -> fs (process self data w).1.1 !! f = fs w !! f.
Proof.
  intros Hfile f Hf.
  rewrite (process_prefix _ _ _ file) by done. cbv zeta.
  assert (Hfinish : ∀ (st' : state) (r : result bool),
    fs (st_world st') !! f = fs w !! f ->
    fs (let '(st'', r') :=
          match r with
          | Ok loaded => (if negb loaded then run_and_store self file else mret tt) st'
          | Raise e => (st', Raise e)
          end in (st_world st'', st_data st'', r')).1.1 !! f = fs w !! f).
  { intros st' [[|]|e] Hst'; cbn [negb]; try done.
    pose proof (keeps_run_and_store st' f Hf) as Hk.
    destruct (run_and_store self file st') as [st'' r]. cbn in *. by rewrite Hk. }
  destruct (bool_decide _); [destruct (force self)|].
  - by apply (Hfinish _ (Ok false)).
  - pose proof (keeps_try_catch EOFError _ _ keeps_load_cached keeps_drop_corrupted
                  {| st_world := add_events [cache_log file] w; st_data := data |}
                  f Hf) as Hk.
    destruct (try_catch _ _ _ _) as [st' r]. by apply Hfinish.
  - by apply (Hfinish _ (Ok false)).
Qed.

End Frame.

(** * [_process] and the dict of entries *)

Section ProcessEntries.
Context `{Runtime}.
Variable self : PickleCache.

Lemma opt_assoc_get_set_ne {V} k k' (v : V) d :
  k' ≠ k -> opt_assoc_get k' (opt_assoc_set k v d) = opt_assoc_get k' d.
Proof.
  intros Hne. induction d as [|[k0 v0] d IH]; cbn.
  - by rewrite decide_False.
  - destruct (decide (k0 = k)) as [->|Hk0]; cbn.
    + by rewrite !decide_False.
    + destruct (decide (k0 = k')); [done|apply IH].
Qed.

(** X14.  [_process] runs the pipeline and files the outcome under the hash of
    the chain: the dict it returns holds the new entry there, made of the
    record as the pipeline left it and of the stop flag it also returns, and
    holds under every other hash what the dict it was given held. *)
Theorem _process_files_entry_under_chain_hash cache st stop :
  stop_flag (Chain_process (modules self) (st_data st)).2 = Ok stop ->
  ∃ st' cache',
    _process self cache st = (st', Ok (cache', stop)) ∧
    st_data st' = (Chain_process (modules self) (st_data st)).1 ∧
    opt_assoc_get (chain_hash (chain_info self)) cache' =
      Ok (make_entry (st_data st') stop (chain_info self)) ∧
    ∀ h, h ≠ chain_hash (chain_info self) ->
         opt_assoc_get h cache' = opt_assoc_get h (default [] cache).
Proof.
  intros Hstop. rewrite _process_run. cbv zeta. rewrite Hstop.
  cbn [mbind result_bind]. eexists _, _. split; [done|]. cbn [st_data].
  split; [done|]. split; [apply opt_assoc_get_set|].
  intros h Hne. by apply opt_assoc_get_set_ne.
Qed.

(** X15.  The order in which the attributes of a unit were set does not change
    the bytes the unit is dumped to, at any depth and for any codec: its
    attributes are visited in the order of their names. *)
Theorem instance_dump_ignores_attribute_order c attrs1 attrs2 level :
  NoDup attrs1.*1 ->
  attrs1 ≡ₚ attrs2 ->
  _object_dump_to_string self (PInst c attrs1) level =
  _object_dump_to_string self (PInst c attrs2) level.
Proof.
  intros Hnd Hperm. unfold _object_dump_to_string. cbn [dump_rec].
  destruct (_ <? _)%nat; [done|].
  cbn [class_name py_name]. rewrite (assoc_Permutation attrs1 attrs2) by done.
  assert (Hitems : object_items (PInst c attrs1) = object_items (PInst c attrs2)).
  { unfold object_items. cbn [py_vars mbind result_bind try_except].
    fold (vars_items attrs1). fold (vars_items attrs2). unfold sorted.
    rewrite !comparable_vars.
    rewrite (sort_items_unique (vars_items attrs1) (vars_items attrs2));
      [done|by apply vars_items_fst|].
    unfold vars_items. by apply fmap_Permutation. }
  by rewrite Hitems.
Qed.

End ProcessEntries.

(** * The further properties at concrete inputs *)

Section MoreRuns.
Import Sample Cases.
#[local] Existing Instance Sample.runtime.

Lemma process_missing_identity_field_witness :
  process stopping nameless empty_world = (empty_world, nameless, Raise KeyError).
Proof.
  apply (process_missing_identity_field stopping nameless empty_world).
  vm_compute. reflexivity.
Defined.

Lemma process_unpicklable_identity_witness :
  process stopping lock_id empty_world = (empty_world, lock_id, Raise TypeError).
Proof.
  apply (process_unpicklable_identity stopping lock_id empty_world (POpaque "lock"));
    vm_compute; reflexivity.
Defined.

Lemma process_pipeline_error_propagates_witness :
  let '(w', data', r) := process failing record7 empty_world in
  r = Raise KeyError ∧
  data' = (Chain_process (modules failing) record7).1 ∧
  fs w' = fs empty_world ∧
  trace w' = trace empty_world ++
             [cache_log (file_of failing record7);
              Log "debug" "Not found in cache, processing chain";
              Ran record7].
Proof.
  apply (process_pipeline_error_propagates failing record7 empty_world
           (file_of failing record7) KeyError);
    try (vm_compute; reflexivity).
  intros [=].
Defined.

Lemma process_forced_reruns_and_overwrites_witness :
  let w := world_with forcing record7' (b_ "anything") in
  let file := file_of forcing record7' in
  let content' :=
    the [] (pickle_dump
              (make_entry (Chain_process (modules forcing) record7').1 false
                 (chain_info forcing))) in
  let '(w', data'', r) := process forcing record7' w in
  r = Ok tt ∧ data'' = (Chain_process (modules forcing) record7').1 ∧
  fs w' = <[file := content']> (fs w) ∧
  gc_enabled w' = gc_enabled w ∧
  trace w' = trace w ++ [cache_log file;
                         Log "info" "Item found in cache but force=True";
                         Log "debug" "Not found in cache, processing chain";
                         Ran record7'].
Proof.
  apply (process_forced_reruns_and_overwrites forcing record7'
           (world_with forcing record7' (b_ "anything"))
           (file_of forcing record7') (b_ "anything") false);
    vm_compute; reflexivity.
Defined.

Lemma process_forced_failure_keeps_entry_witness :
  let w := world_with forced_failing record7 (b_ "D0:") in
  let '(w', data', r) := process forced_failing record7 w in
  r = Raise KeyError ∧ fs w' = fs w.
Proof.
  apply (process_forced_failure_keeps_entry forced_failing record7
           (world_with forced_failing record7 (b_ "D0:"))
           (file_of forced_failing record7) (b_ "D0:") KeyError);
    try (vm_compute; reflexivity).
  intros [=].
Defined.

Lemma process_unpicklable_entry_witness :
  let file := file_of completing with_connection in
  let '(w', data'', r) := process completing with_connection empty_world in
  r = Raise TypeError ∧
  data'' = (Chain_process (modules completing) with_connection).1 ∧
  is_Some (fs w' !! file) ∧
  (∀ f, f ≠ file -> fs w' !! f = fs empty_world !! f).
Proof.
  apply (process_unpicklable_entry completing with_connection empty_world
           (file_of completing with_connection) false TypeError);
    vm_compute; reflexivity.
Defined.

Lemma process_load_error_propagates_witness :
  let w := world_with completing record7 (b_ "garbage") in
  let '(w', data', r) := process completing record7 w in
  r = Raise UnpicklingError ∧ data' = record7 ∧ fs w' = fs w ∧
  gc_enabled w' = false ∧
  trace w' = trace w ++ [cache_log (file_of completing record7);
                         Log "info" "Found in cache, skipping chain"].
Proof.
  apply (process_load_error_propagates completing record7
           (world_with completing record7 (b_ "garbage"))
           (file_of completing record7) (b_ "garbage") UnpicklingError);
    try (vm_compute; reflexivity).
  intros [=].
Defined.

Lemma process_replays_completed_run_witness :
  let data' := (Chain_process (modules completing) record7).1 in
  let file := file_of completing record7 in
  let '(w1, _, r1) := process completing record7 empty_world in
  let '(w2, d2, r2) := process completing record7' w1 in
  r1 = Ok tt ∧ r2 = Ok tt ∧
  d2 = merge_dict data' record7' ∧
  (NoDup data'.*1 -> ∀ k v, dict_get k data' = Some v -> dict_get k d2 = Some v) ∧
  fs w2 = fs w1 ∧
  trace w2 = trace w1 ++ [cache_log file; Log "info" "Found in cache, skipping chain"].
Proof.
  apply (process_replays_completed_run completing record7 record7' empty_world
           (file_of completing record7)
           (the [] (pickle_dump
                      (make_entry (Chain_process (modules completing) record7).1
                         false (chain_info completing)))));
    vm_compute; reflexivity.
Defined.

Lemma process_replays_stopped_run_witness :
  let file := file_of stopping record7 in
  let '(w1, _, _) := process stopping record7 empty_world in
  let '(w2, d2, r2) := process stopping record7' w1 in
  r2 = Raise StopIteration ∧ d2 = record7' ∧ fs w2 = fs w1 ∧
  trace w2 = trace w1 ++ [cache_log file; Log "info" "Found in cache, skipping chain"].
Proof.
  apply (process_replays_stopped_run stopping record7 record7' empty_world
           (file_of stopping record7)
           (the [] (pickle_dump
                      (make_entry (Chain_process (modules stopping) record7).1
                         true (chain_info stopping)))));
    vm_compute; reflexivity.
Defined.

Lemma process_sets_rights_or_ignores_refusal_witness :
  let file := file_of completing record7 in
  let content' :=
    the [] (pickle_dump
              (make_entry (Chain_process (modules completing) record7).1 false
                 (chain_info completing))) in
  let '(w', _, r) := process completing record7 empty_world in
  r = Ok tt ∧ fs w' !! file = Some content' ∧
  (file ∉ chmod_refused empty_world -> modes w' !! file = Some 438) ∧
  (file ∈ chmod_refused empty_world -> modes w' = modes empty_world).
Proof.
  apply (process_sets_rights_or_ignores_refusal completing record7 empty_world
           (file_of completing record7) false);
    vm_compute; reflexivity.
Defined.

Lemma process_touches_only_its_file_witness :
  fs (process completing record7
        (world_with stopping record7 (b_ "D0:"))).1.1 !! file_of stopping record7 =
  fs (world_with stopping record7 (b_ "D0:")) !! file_of stopping record7.
Proof.
  apply (process_touches_only_its_file completing (file_of completing record7)
           record7 (world_with stopping record7 (b_ "D0:"))).
  - vm_compute. reflexivity.
  - vm_compute. discriminate.
Defined.

Lemma cache_files_equal_iff_witness :
  get_cache_file stopping record7 = get_cache_file completing record7' ↔
  Sha256.hexdigest (b_ "I7;") = Sha256.hexdigest (b_ "I7;") ∧
  "bd57481f3a844ac037cc106999c97864c2f9be7ac5fa375cff1afb36a99c9c97"%string =
  "6547724f5f1f56250e755b3863540327540b9eeb926efe05a8fc5b3f97a617fb"%string.
Proof.
  apply (cache_files_equal_iff stopping completing record7 record7'
           (PInt 7) (PInt 7) (b_ "I7;") (b_ "I7;")); vm_compute; reflexivity.
Defined.

Lemma hash_chain_settles_witness :
  let self := fresh [Stop] false 10 in
  let self' := new [Stop] false 10 in
  (length (modules self) ≠ chain_len (chain_info self) ->
   compute_chain_info self = Ok (chain_info self')) ∧
  chain_len (chain_info self') = length (modules self') ∧
  set_chain_info self (chain_info self') = self' ∧
  hash_chain self' = Ok self'.
Proof.
  apply (hash_chain_settles (fresh [Stop] false 10) (new [Stop] false 10)).
  vm_compute. reflexivity.
Defined.

Lemma _process_files_entry_under_chain_hash_witness :
  let st := {| st_world := empty_world; st_data := record7 |} in
  let cache := Some [(Some "another chain"%string, PNone)] in
  ∃ st' cache',
    _process stopping cache st = (st', Ok (cache', true)) ∧
    st_data st' = (Chain_process (modules stopping) (st_data st)).1 ∧
    opt_assoc_get (chain_hash (chain_info stopping)) cache' =
      Ok (make_entry (st_data st') true (chain_info stopping)) ∧
    ∀ h, h ≠ chain_hash (chain_info stopping) ->
         opt_assoc_get h cache' = opt_assoc_get h (default [] cache).
Proof.
  apply (_process_files_entry_under_chain_hash stopping
           (Some [(Some "another chain"%string, PNone)])
           {| st_world := empty_world; st_data := record7 |} true).
  vm_compute. reflexivity.
Defined.

(** A unit whose two attributes were set in either order: the bytes are
    the same, with [lang] before [size]. *)
Lemma instance_dump_ignores_attribute_order_witness :
  _object_dump_to_string stopping
    (Tagger [("size", PInt 3); ("lang", PStr "en")]) 1 =
    Ok (DBytes (b_ "TaggerS4:langS2:enS4:sizeI3;")) ∧
  _object_dump_to_string stopping
    (Tagger [("size", PInt 3); ("lang", PStr "en")]) 1 =
  _object_dump_to_string stopping
    (Tagger [("lang", PStr "en"); ("size", PInt 3)]) 1.
Proof.
  split; [vm_compute; reflexivity|].
  apply (instance_dump_ignores_attribute_order stopping).
  - apply (bool_decide_unpack _). vm_compute. exact I.
  - apply Permutation_swap.
Defined.

Lemma structural_hash_blind_to_partial_witness :
  _get_chain_hash stopping (PList [Stop; partial_f]) =
  _get_chain_hash stopping (PList [Stop; partial_g]).
Proof.
  apply (structural_hash_blind_to_partial stopping).
  - vm_compute. lia.
  - constructor; [by left|]. constructor; [|constructor]. right. by split.
Defined.

Lemma mixed_key_dict_values_not_hashed_witness :
  _object_dump_to_string stopping (PDict mixed_1) 1 =
  _object_dump_to_string stopping (PDict mixed_2) 1.
Proof.
  apply (mixed_key_dict_values_not_hashed stopping mixed_1 mixed_2 1);
    vm_compute; reflexivity.
Defined.

Lemma chain_mtime_of_flat_chain_witness :
  _get_chain_mtime (PList [PFunc "f"; SetField "x" (PInt 1); partial_f]) =
  Ok (max_list (0 :: map _get_object_mtime
                       (List.filter has_process
                          [PFunc "f"; SetField "x" (PInt 1); partial_f]))).
Proof.
  apply (chain_mtime_of_flat_chain
           [PFunc "f"; SetField "x" (PInt 1); partial_f]).
  - vm_compute. lia.
  - repeat constructor.
Defined.

Lemma chain_mtime_of_text_member_witness :
  _get_chain_mtime (PList ([Stop] ++ PStr "ab" :: [PFunc "f"])) =
  Raise RecursionError.
Proof.
  apply (chain_mtime_of_text_member [Stop] "a"%char "b" [PFunc "f"]).
  repeat constructor.
Defined.

(** Under the mask 0o022 the directory gets the rights 0o777 all the same;
    its parent was missing and is made too. *)
Lemma init_creates_directory_with_rights_witness :
  umask masked = 18 ∧
  dirs (init (Some (PList [Stop])) masked).1 !! "/srv"%string = Some 511 ∧
  dirs (init (Some (PList [Stop])) masked).1 !! "/srv/cache"%string = Some 511.
Proof.
  split; [reflexivity|]. split; [vm_compute; reflexivity|].
  apply (init_creates_directory_with_rights units_of mkdirs "/srv/cache" (KStr "id")
           (Some (PList [Stop])) false 10 511 masked
           (init (Some (PList [Stop])) masked).1
           (the (fresh [] false 10) (init (Some (PList [Stop])) masked).2)).
  - intros path mode mask ds ds' _. unfold mkdirs.
    destruct (bool_decide _); [done|]. intros [= <-]. apply lookup_insert_eq.
  - reflexivity.
  - vm_compute. reflexivity.
  - vm_compute. reflexivity.
Defined.

Lemma init_with_units_has_fingerprint_witness :
  let self := the (fresh [] false 10) (init (Some (PList [Stop])) masked).2 in
  chain_len (chain_info self) = length (units_of (Some (PList [Stop]))) ∧
  ∃ h, chain_hash (chain_info self) = Some h ∧
       get_cache_file self record7 =
         Ok ("/srv/cache" +:+ "/" +:+ Sha256.hexdigest (b_ "I7;") +:+ h).
Proof.
  apply (init_with_units_has_fingerprint units_of mkdirs "/srv/cache" (KStr "id")
           (PList [Stop]) false 10 511 masked
           (init (Some (PList [Stop])) masked).1
           (the (fresh [] false 10) (init (Some (PList [Stop])) masked).2)
           record7 (PInt 7) (b_ "I7;"));
    try (vm_compute; reflexivity).
  vm_compute. intros [=].
Defined.

Lemma init_without_units_cannot_process_witness :
  let self := the (fresh [Stop] false 10) (init None masked).2 in
  chain_hash (chain_info self) = None ∧
  process self record7 empty_world = (empty_world, record7, Raise TypeError).
Proof.
  apply (init_without_units_cannot_process units_of mkdirs "/srv/cache" (KStr "id")
           None false 10 511 masked (init None masked).1
           (the (fresh [Stop] false 10) (init None masked).2)
           record7 empty_world (PInt 7) (b_ "I7;"));
    vm_compute; reflexivity.
Defined.

(** The entry of [completing] for [record7], with a modification time of
    1e20 seconds: beyond [time_t]. *)
Lemma process_hit_unformattable_time_raises_witness :
  let w := world_with completing record7 (the [] (pickle_dump far_entry)) in
  let '(w', data', r) := process completing record7' w in
  r = Raise OverflowError ∧ data' = record7' ∧ fs w' = fs w ∧
  gc_enabled w' = true ∧
  trace w' = trace w ++ [cache_log (file_of completing record7);
                         Log "info" "Found in cache, skipping chain"].
Proof.
  apply (process_hit_unformattable_time_raises completing record7'
           (world_with completing record7 (the [] (pickle_dump far_entry)))
           (file_of completing record7) (the [] (pickle_dump far_entry))
           far_entry (PDict [(KStr "id", PInt 7); (KStr "x", PInt 1)])
           (PBool false) (PFloat (10 ^ 20)) OverflowError);
    try (vm_compute; reflexivity).
  - right. split; vm_compute; reflexivity.
  - discriminate.
Defined.


End MoreRuns.
